(** * Payment reconciliation controller of donategifts

    A shallow embedding of [src/controller/paymentProvider.ts]
    (class [PaymentProviderController]) and the properties of its
    payment-completion pipeline.

    The controller is asynchronous JavaScript working on a database, a
    process-wide field ([lastWishcardDonation]) and three outbound message
    channels.  It is embedded as state passing: a handler is a function from
    the [World] (database and dedup slot) to its result, the next world and
    the list of effects it performed, in the order it performed them.

    One request is handled to its end before the next one starts; the
    interleaving of concurrent requests and the moment at which the wallet
    provider's callback fires are not modelled.  The repositories, the two
    provider SDKs, the messaging helper and the configuration are not in the
    controller's file: the repositories follow the interface the spec gives
    them, everything else is a parameter ([Env]). *)

From Stdlib Require Import String Ascii List ZArith Bool Lia.
From Stdlib Require Import PrimFloat SpecFloat FloatOps FloatAxioms Uint63.

Import ListNotations.

Local Open Scope string_scope.
Local Open Scope list_scope.

(** ** JavaScript values the controller handles *)

(** A value of type [string | undefined]: metadata keys, positions of a
    split reference string and request headers may all be absent. *)
Definition JsString := option string.

(** [`${v}`]: interpolation into a template literal. *)
Definition interpolate (v : JsString) : string :=
  match v with
  | Some s => s
  | None => "undefined"
  end.

(** Truthiness of a [string | undefined] value, as [if (v)] tests it. *)
Definition truthy (v : JsString) : bool :=
  match v with
  | Some s => negb (s =? "")
  | None => false
  end.

(** [a !== b] on [string | undefined] values. *)
Definition strictNeq (a b : JsString) : bool :=
  match a, b with
  | Some x, Some y => negb (x =? y)
  | None, None => false
  | _, _ => true
  end.

(** A thrown value: an [Error] object with its class name and message. *)
Record Error := mkError { errorName : string; message : string }.

(** [new Error(msg)] *)
Definition newError (msg : string) : Error :=
  {| errorName := "Error"; message := msg |}.

(** [`${error}`], i.e. [Error.prototype.toString]: the name alone when the
    message is empty, the message alone when the name is. *)
Definition errorToString (e : Error) : string :=
  if errorName e =? "" then message e
  else if message e =? "" then errorName e
  else errorName e ++ ": " ++ message e.

(** ** Domain records (the fields the controller reads) *)

Record User := mkUser
  { user_id : string; email : string; fName : string; lName : string }.

Record AgencyAddress := mkAddress
  { address1 : string; address2 : string; city : string;
    state : string; zipcode : string }.

Record Agency := mkAgency
  { agency_name : string;
    accountManager_email : string;
    agencyAddress : AgencyAddress }.

Record WishCard := mkWishCard
  { wishCard_id : string;
    status : string;
    belongsTo_id : string;
    childFirstName : string;
    wishItemName : string;
    wishItemPrice : float;
    wishItemURL : string }.

Record Donation := mkDonation
  { donationFrom : string;
    donationTo : string;
    donationCard : string;
    donationPrice : JsString }.

(** ** Outbound message payloads (lines 91-99, 106-114, 121-133) *)

Record ConfirmationEmail := mkConfirmationEmail
  { ce_email : string; ce_firstName : string; ce_lastName : string;
    ce_childName : string; ce_item : string; ce_price : float;
    ce_agency : JsString }.

Record AgencyEmail := mkAgencyEmail
  { ae_agencyName : string; ae_agencyEmail : string; ae_childName : string;
    ae_item : string; ae_price : float; ae_donationDate : string;
    ae_address : string }.

Record DiscordNotification := mkDiscord
  { dn_user : string; dn_service : string;
    dn_item : string; dn_url : string; dn_child : string;
    dn_amount : JsString; dn_userDonation : JsString }.

(** Parameters of [stripeClient.paymentIntents.create] (lines 156-167). *)
Record IntentMetadata := mkIntentMetadata
  { im_wishCardId : string;
    im_userId : string;
    im_agencyName : JsString;
    im_userDonation : JsString;
    im_amount : float }.

Record IntentParams := mkIntentParams
  { ip_amount : float;
    ip_currency : string;
    ip_receipt_email : JsString;
    ip_metadata : IntentMetadata }.

(** ** Effects *)

(** What a handler does to the outside, in program order. *)
Inductive Effect :=
| UpdateWishCard (id : string) (newStatus : string)
| CreateNewDonation (d : Donation)
| SendDonationConfirmationEmail (p : ConfirmationEmail)
| SendAgencyDonationEmail (p : AgencyEmail)
| SendDiscordDonationNotification (p : DiscordNotification)
| CreatePaymentIntent (p : IntentParams)
| LogInfo (msg : string)
| LogInfoError (e : Error)
| LogError (prefix : string) (e : Error).

(** The three notification channels. *)
Inductive Channel := PayerConfirmation | AgencyConfirmation | PublicAnnouncement.

Definition dispatchOf (e : Effect) : option Channel :=
  match e with
  | SendDonationConfirmationEmail _ => Some PayerConfirmation
  | SendAgencyDonationEmail _ => Some AgencyConfirmation
  | SendDiscordDonationNotification _ => Some PublicAnnouncement
  | _ => None
  end.

Definition isStatusUpdate (e : Effect) : bool :=
  match e with UpdateWishCard _ _ => true | _ => false end.

Definition isDonationRecord (e : Effect) : bool :=
  match e with CreateNewDonation _ => true | _ => false end.

Definition isDispatch (e : Effect) : bool :=
  match dispatchOf e with Some _ => true | None => false end.

(** Item-status updates, donation records and dispatches performed by a run. *)
Definition statusUpdates (t : list Effect) : nat :=
  length (filter isStatusUpdate t).

Definition donationRecords (t : list Effect) : nat :=
  length (filter isDonationRecord t).

Definition dispatches (t : list Effect) : list Channel :=
  flat_map (fun e => match dispatchOf e with Some c => [c] | None => [] end) t.

(** A run mutates nothing and notifies nobody. *)
Definition quiet (t : list Effect) : bool :=
  forallb (fun e => negb (isStatusUpdate e || isDonationRecord e || isDispatch e)) t.

(** ** The world: database and the controller's dedup slot *)

Record Db := mkDb
  { users : list User;
    wishCards : list WishCard;
    agencies : list Agency;
    donations : list Donation }.

Record World := mkWorld
  { db : Db;
    lastWishcardDonation : JsString }.

(** The constructor's [this.lastWishcardDonation = ''] (line 48). *)
Definition initialWorld (d : Db) : World :=
  {| db := d; lastWishcardDonation := Some "" |}.

(** ** The monad of handlers: state, exceptions, effect log *)

Record Outcome (A : Type) := mkOutcome
  { value : Error + A;
    final : World;
    emitted : list Effect }.

Arguments mkOutcome {A} _ _ _.
Arguments value {A} _.
Arguments final {A} _.
Arguments emitted {A} _.

Definition M (A : Type) : Type := World -> Outcome A.

Definition ret {A} (a : A) : M A :=
  fun w => mkOutcome (inr a) w [].

Definition throw {A} (e : Error) : M A :=
  fun w => mkOutcome (inl e) w [].

Definition bind {A B} (m : M A) (k : A -> M B) : M B :=
  fun w =>
    let o := m w in
    match value o with
    | inl e => mkOutcome (inl e) (final o) (emitted o)
    | inr a =>
        let o' := k a (final o) in
        mkOutcome (value o') (final o') (emitted o ++ emitted o')
    end.

(** [try { m } catch (error) { h error }] *)
Definition tryCatch {A} (m : M A) (h : Error -> M A) : M A :=
  fun w =>
    let o := m w in
    match value o with
    | inl e =>
        let o' := h e (final o) in
        mkOutcome (value o') (final o') (emitted o ++ emitted o')
    | inr a => o
    end.

Definition emit (e : Effect) : M unit :=
  fun w => mkOutcome (inr tt) w [e].

Declare Scope handler_scope.
Delimit Scope handler_scope with handler.
Notation "x <- m ;; k" := (bind m (fun x => k))
  (at level 61, m at next level, right associativity) : handler_scope.

Notation "m ;; k" := (bind m (fun _ => k))
  (at level 61, right associativity) : handler_scope.

Local Open Scope handler_scope.

(** ** Repositories *)

(** Modelled from the spec: the repositories ([UserRepository],
    [WishCardRepository], [AgencyRepository], [DonationRepository]) are not
    in the controller's file.  The spec gives the Entity Repository as
    [getByExternalId(id) -> Entity | NotFound], [updateStatus(id, status)]
    and [create(record) -> record]; a lookup with an absent key finds
    nothing. *)
Definition lookupUser (id : JsString) (d : Db) : option User :=
  match id with
  | Some i => find (fun u => user_id u =? i) (users d)
  | None => None
  end.

Definition lookupWishCard (id : JsString) (d : Db) : option WishCard :=
  match id with
  | Some i => find (fun c => wishCard_id c =? i) (wishCards d)
  | None => None
  end.

Definition lookupAgency (name : JsString) (d : Db) : option Agency :=
  match name with
  | Some n => find (fun a => agency_name a =? n) (agencies d)
  | None => None
  end.

Definition getUserByObjectId (id : JsString) : M (option User) :=
  fun w => mkOutcome (inr (lookupUser id (db w))) w [].

Definition getWishCardByObjectId (id : JsString) : M (option WishCard) :=
  fun w => mkOutcome (inr (lookupWishCard id (db w))) w [].

Definition getAgencyByName (name : JsString) : M (option Agency) :=
  fun w => mkOutcome (inr (lookupAgency name (db w))) w [].

Definition setStatus (newStatus : string) (c : WishCard) : WishCard :=
  {| wishCard_id := wishCard_id c;
     status := newStatus;
     belongsTo_id := belongsTo_id c;
     childFirstName := childFirstName c;
     wishItemName := wishItemName c;
     wishItemPrice := wishItemPrice c;
     wishItemURL := wishItemURL c |}.

Definition updateStatusIn (id newStatus : string) (d : Db) : Db :=
  {| users := users d;
     wishCards :=
       map (fun c => if wishCard_id c =? id then setStatus newStatus c else c)
           (wishCards d);
     agencies := agencies d;
     donations := donations d |}.

Definition insertDonation (r : Donation) (d : Db) : Db :=
  {| users := users d;
     wishCards := wishCards d;
     agencies := agencies d;
     donations := donations d ++ [r] |}.

Definition updateWishCardByObjectId (id newStatus : string) : M unit :=
  fun w =>
    mkOutcome (inr tt)
      {| db := updateStatusIn id newStatus (db w);
         lastWishcardDonation := lastWishcardDonation w |}
      [UpdateWishCard id newStatus].

Definition createNewDonation (r : Donation) : M unit :=
  fun w =>
    mkOutcome (inr tt)
      {| db := insertDonation r (db w);
         lastWishcardDonation := lastWishcardDonation w |}
      [CreateNewDonation r].

(** ** JavaScript built-ins the controller calls *)

(** [String.prototype.split] with a one-character separator. *)
Fixpoint split (sep : ascii) (s : string) : list string :=
  match s with
  | EmptyString => [EmptyString]
  | String c rest =>
      if Ascii.eqb c sep then EmptyString :: split sep rest
      else
        match split sep rest with
        | piece :: pieces => String c piece :: pieces
        | [] => [String c EmptyString]
        end
  end.

(** [data[i]] on an array of strings: [undefined] past the end. *)
Definition index (data : list string) (i : nat) : JsString := nth_error data i.

Definition isDigit (c : ascii) : bool :=
  let n := nat_of_ascii c in ((48 <=? n) && (n <=? 57))%nat.

Definition digitValue (c : ascii) : Z := Z.of_nat (nat_of_ascii c) - 48.

(** White space and line terminators among the characters below 256 (a
    string here stands for a JavaScript string of such characters). *)
Definition isWhiteSpace (c : ascii) : bool :=
  let n := nat_of_ascii c in
  ((n =? 32) || ((9 <=? n) && (n <=? 13)) || (n =? 160))%nat.

Fixpoint skipWhiteSpace (s : string) : string :=
  match s with
  | String c rest => if isWhiteSpace c then skipWhiteSpace rest else s
  | EmptyString => s
  end.

(** Reads a run of digits onto [acc]; returns the number read, how many
    digits it had and the rest of the string. *)
Fixpoint readDigits (s : string) (acc : Z) (n : nat) : Z * nat * string :=
  match s with
  | String c rest =>
      if isDigit c then readDigits rest (10 * acc + digitValue c) (S n)
      else (acc, n, s)
  | EmptyString => (acc, n, s)
  end.

(** What [parseFloat] reads: [Infinity], or [mantissa * 10^exponent] with a
    mantissa that is not negative; both with a sign. *)
Inductive Numeral :=
| Infinite (negative : bool)
| Finite (negative : bool) (mantissa : Z) (exponent : Z).

Definition readSign (s : string) : bool * string :=
  match s with
  | String "-" rest => (true, rest)
  | String "+" rest => (false, rest)
  | _ => (false, s)
  end.

(** An exponent part [e], [E] with an optional sign and at least one digit;
    0 when the string does not start with one. *)
Definition readExponent (s : string) : Z :=
  match s with
  | String c rest =>
      if (Ascii.eqb c "e" || Ascii.eqb c "E")%bool then
        let '(neg, digits) := readSign rest in
        let '(e, n, _) := readDigits digits 0 0 in
        if (n =? 0)%nat then 0%Z else if neg then (- e)%Z else e
      else 0%Z
  | EmptyString => 0%Z
  end.

(** The longest prefix of [s] that is a [StrDecimalLiteral], after leading
    white space: an optional sign, then [Infinity] or digits with an optional
    fraction and an optional exponent part.  [None] when there is none. *)
Definition readNumeral (s : string) : option Numeral :=
  let '(neg, s) := readSign (skipWhiteSpace s) in
  if String.prefix "Infinity" s then Some (Infinite neg)
  else
    let '(int, nint, rest) := readDigits s 0 0 in
    let '(m, nfrac, rest) :=
      match rest with
      | String "." rest' => readDigits rest' int 0
      | _ => (int, 0%nat, rest)
      end in
    if (nint + nfrac =? 0)%nat then None
    else Some (Finite neg m (readExponent rest - Z.of_nat nfrac)).

(** The double nearest to [m * 10^e] (ties to even), by one correctly
    rounded division of integers of any size.  The two shortcuts only keep
    powers of ten small: from [10^309] on every double is infinite, and below
    [10^-324] the nearest double is zero. *)
Definition nearestDouble (neg : bool) (m e : Z) : float :=
  match m with
  | Zpos p =>
      if (309 <=? e)%Z then (if neg then neg_infinity else infinity)
      else if ((Z.log2 m + 3) / 3 + e <? -324)%Z
      then (if neg then neg_zero else zero)
      else
        let '(num, den) :=
          if (0 <=? e)%Z then (Z.to_pos (m * 10 ^ e), 1%positive)
          else (p, Z.to_pos (10 ^ (- e))) in
        SF2Prim (SFdiv prec emax (S754_finite neg num 0)
                   (S754_finite false den 0))
  | _ => if neg then neg_zero else zero
  end.

(** A natural number below [2^53] as a double. *)
Definition floatOfZ (z : Z) : float := of_uint63 (Uint63.of_Z z).

(** [parseFloat]: the double nearest to the numeral the string starts
    with, [NaN] when it starts with none. *)
Definition parseFloat (s : string) : float :=
  match readNumeral s with
  | None => nan
  | Some (Infinite neg) => if neg then neg_infinity else infinity
  | Some (Finite neg m e) => nearestDouble neg m e
  end.

(** [Math.floor] on doubles.  A finite double is [+-m * 2^e]; with [e >= 0]
    it is an integer already, and with [e < 0] its magnitude is below
    [2^53], so the floor is an exact double. *)
Definition Math_floor (x : float) : float :=
  match Prim2SF x with
  | S754_finite false m e =>
      if (0 <=? e)%Z then x else floatOfZ (Z.shiftr (Z.pos m) (- e))
  | S754_finite true m e =>
      if (0 <=? e)%Z then x
      else (- floatOfZ (- Z.shiftr (Z.neg m) (- e)))%float
  | _ => x
  end.

(** ** External collaborators *)

(** The metadata bag [event.data.object.metadata] of a card-processor
    event, stamped at create-intent time.  Any key may be absent. *)
Record StripeEvent := mkStripeEvent
  { md_wishCardId : JsString;
    md_userId : JsString;
    md_amount : JsString;
    md_userDonation : JsString;
    md_agencyName : JsString }.

(** A verified card-processor event, as far as the handler reads it: its
    object's metadata bag, which an object that carries no metadata lacks. *)
Record SignedEvent := mkSignedEvent { metadata : option StripeEvent }.

Definition carrying (bag : StripeEvent) : SignedEvent :=
  {| metadata := Some bag |}.

(** [config.NODE_ENV] and [config.STRIPE.*] of [helper/config]. *)
Record Config := mkConfig
  { NODE_ENV : string;
    SIGNING_SECRET : string;
    SIGNING_SECRET_LOCAL : JsString }.

(** An HTTP response: [res.status(n).send(text)], [res.json(...)],
    [res.send(...)]. *)
Inductive Body :=
| Received (flag : bool)
| ClientSecret (secret : string)
| Text (text : string).

Record Response := mkResponse { statusCode : Z; responseBody : Body }.

(** Everything the controller calls that is not in its file: the two
    provider SDKs, [helper/messaging], [helper/utils], [helper/config], the
    base controller's [handleError] and the clock.  A send returns the
    error it throws, if any. *)
Record Env := mkEnv
  { config : Config;
    constructEvent : string -> string -> string -> Error + SignedEvent;
    getAndVerify : string -> option Error;
    sendDonationConfirmationEmail : ConfirmationEmail -> option Error;
    sendAgencyDonationEmail : AgencyEmail -> option Error;
    sendDiscordDonationNotification : DiscordNotification -> option Error;
    formattedToday : string;
    calculateWishItemTotalPrice : float -> string;
    paymentIntents_create : IntentParams -> Error + string;
    handleError : string -> Response }.

(** Arguments of [handleDonation] (line 55). *)
Record DonationArgs := mkDonationArgs
  { service : string;
    userId : JsString;
    wishCardId : JsString;
    amount : JsString;
    userDonation : JsString;
    agencyName : JsString }.

(** The entity a resolution misses, and the error thrown for it
    (lines 61-63, 71-73, 77-79). *)
Inductive Entity := Item | Payer | BeneficiaryAgency.

Definition notFound (which : Entity) (a : DonationArgs) : Error :=
  match which with
  | Item =>
      newError ("[PaymentProviderController][handleDonation] WishCard "
                ++ interpolate (wishCardId a) ++ " not found!")
  | Payer =>
      newError ("[PaymentProviderController][handleDonation] User "
                ++ interpolate (userId a) ++ " not found!")
  | BeneficiaryAgency =>
      newError ("[PaymentProviderController][handleDonation] Agency "
                ++ interpolate (agencyName a) ++ " not found!")
  end.

Section Controller.

Variable env : Env.

(** One call into [Messaging]: the attempt is an effect, its failure an
    exception. *)
Definition send {P} (attempt : P -> Effect) (oracle : P -> option Error)
  (p : P) : M unit :=
  fun w =>
    mkOutcome
      match oracle p with
      | Some e => inl e
      | None => inr tt
      end
      w [attempt p].

(** The payloads of lines 91-99, 106-114 and 121-133. *)
Definition confirmationEmail (a : DonationArgs) (user : User)
  (wishCard : WishCard) : ConfirmationEmail :=
  {| ce_email := email user;
     ce_firstName := fName user;
     ce_lastName := lName user;
     ce_childName := childFirstName wishCard;
     ce_item := wishItemName wishCard;
     ce_price := wishItemPrice wishCard;
     ce_agency := agencyName a |}.

Definition agencyEmail (wishCard : WishCard) (agency : Agency) : AgencyEmail :=
  {| ae_agencyName := agency_name agency;
     ae_agencyEmail := accountManager_email agency;
     ae_childName := childFirstName wishCard;
     ae_item := wishItemName wishCard;
     ae_price := wishItemPrice wishCard;
     ae_donationDate := formattedToday env;
     ae_address :=
       address1 (agencyAddress agency) ++ " "
       ++ address2 (agencyAddress agency) ++ ", "
       ++ city (agencyAddress agency) ++ ", "
       ++ state (agencyAddress agency) ++ " "
       ++ zipcode (agencyAddress agency) |}.

Definition discordNotification (a : DonationArgs) (user : User)
  (wishCard : WishCard) : DiscordNotification :=
  {| dn_user := fName user;
     dn_service := service a;
     dn_item := wishItemName wishCard;
     dn_url := wishItemURL wishCard;
     dn_child := childFirstName wishCard;
     dn_amount := amount a;
     dn_userDonation := userDonation a |}.

(** The donation record of lines 82-87. *)
Definition donationOf (a : DonationArgs) (user : User) (wishCard : WishCard)
  : Donation :=
  {| donationFrom := user_id user;
     donationTo := belongsTo_id wishCard;
     donationCard := wishCard_id wishCard;
     donationPrice := amount a |}.

(** Lines 89-102. *)
Definition notifyDonor (a : DonationArgs) (user : User) (wishCard : WishCard)
  : M unit :=
  tryCatch
    (emit (LogInfo "Sending donation confirmation email") ;;
     send SendDonationConfirmationEmail (sendDonationConfirmationEmail env)
       (confirmationEmail a user wishCard))
    (fun error => emit (LogError "" error)).

(** Lines 104-117. *)
Definition notifyAgency (wishCard : WishCard) (agency : Agency) : M unit :=
  tryCatch
    (emit (LogInfo "Sending agency donation email") ;;
     send SendAgencyDonationEmail (sendAgencyDonationEmail env)
       (agencyEmail wishCard agency))
    (fun error => emit (LogError "" error)).

(** Lines 119-136. *)
Definition notifyDiscord (a : DonationArgs) (user : User) (wishCard : WishCard)
  : M unit :=
  tryCatch
    (emit (LogInfo "Sending discord donation notification") ;;
     send SendDiscordDonationNotification (sendDiscordDonationNotification env)
       (discordNotification a user wishCard))
    (fun error => emit (LogError "" error)).

(** [handleDonation] (lines 55-137): the commit. *)
Definition handleDonation (a : DonationArgs) : M unit :=
  user <- getUserByObjectId (userId a) ;;
  wishCard <- getWishCardByObjectId (wishCardId a) ;;
  agency <- getAgencyByName (agencyName a) ;;
  match wishCard with
  | None => throw (notFound Item a)
  | Some wishCard =>
      updateWishCardByObjectId (wishCard_id wishCard) "donated" ;;
      match user with
      | None => throw (notFound Payer a)
      | Some user =>
          match agency with
          | None => throw (notFound BeneficiaryAgency a)
          | Some agency =>
              createNewDonation (donationOf a user wishCard) ;;
              notifyDonor a user wishCard ;;
              notifyAgency wishCard agency ;;
              notifyDiscord a user wishCard
          end
      end
  end.

(** ** The webhook *)

Record PurchaseUnit := mkPurchaseUnit
  { reference_id : string; amount_value : string }.

(** [req.body] of a webhook request: the declared event type and
    [resource.purchase_units]. *)
Record WebhookBody := mkWebhookBody
  { event_type : JsString; purchase_units : list PurchaseUnit }.

Record Request := mkRequest
  { stripe_signature : JsString;
    rawBody : string;
    body : WebhookBody }.

(** Reading a property of [undefined] (line 222 on an empty
    [purchase_units]). *)
Definition typeError : Error :=
  {| errorName := "TypeError";
     message := "Cannot read properties of undefined (reading 'reference_id')" |}.

(** Reading [wishCardId] of a metadata bag that is [undefined]
    (line 195). *)
Definition metadataTypeError : Error :=
  {| errorName := "TypeError";
     message := "Cannot read properties of undefined (reading 'wishCardId')" |}.

Definition readMetadata (event : SignedEvent) : Error + StripeEvent :=
  match metadata event with
  | Some bag => inr bag
  | None => inl metadataTypeError
  end.

(** The two responses of the webhook (lines 209 and 242). *)
Definition ok200 : Response :=
  {| statusCode := 200; responseBody := Received true |}.

Definition badRequest (error : Error) : Response :=
  {| statusCode := 400;
     responseBody := Text ("Webhook Error: " ++ errorToString error) |}.

(** Lines 198-205: the card event as arguments of the commit. *)
Definition stripeDonation (event : StripeEvent) : DonationArgs :=
  {| service := "Stripe";
     userId := md_userId event;
     wishCardId := md_wishCardId event;
     amount := md_amount event;
     userDonation := md_userDonation event;
     agencyName := md_agencyName event |}.

(** Line 196. *)
Definition remember (id : JsString) (w : World) : World :=
  {| db := db w; lastWishcardDonation := id |}.

Definition getLastWishcardDonation : M JsString :=
  fun w => mkOutcome (inr (lastWishcardDonation w)) w [].

Definition setLastWishcardDonation (id : JsString) : M unit :=
  fun w => mkOutcome (inr tt) (remember id w) [].

(** A call into an SDK that returns or throws. *)
Definition call {A} (r : Error + A) : M A :=
  fun w => mkOutcome r w [].

(** Lines 182-186. *)
Definition signingSecret : string :=
  if (NODE_ENV (config env) =? "development")
     && truthy (SIGNING_SECRET_LOCAL (config env))
  then interpolate (SIGNING_SECRET_LOCAL (config env))
  else SIGNING_SECRET (config env).

(** Lines 222-236: the wallet provider's event as arguments of the commit. *)
Definition paypalDonation (req : Request) : Error + DonationArgs :=
  match purchase_units (body req) with
  | [] => inl typeError
  | purchase :: _ =>
      let data := split "%" (reference_id purchase) in
      inr {| service := "Paypal";
             userId := index data 0;
             wishCardId := index data 1;
             amount := Some (amount_value purchase);
             userDonation := index data 2;
             agencyName := index data 3 |}
  end.

(** Lines 217-238: the callback handed to [getAndVerify]. *)
Definition paypalCallback (req : Request) (error : option Error) : M unit :=
  match error with
  | Some error => emit (LogInfoError error) ;; throw error
  | None => args <- call (paypalDonation req) ;; handleDonation args
  end.

(** The callback is an [async] function nobody awaits: what it throws
    reaches no [catch] of the handler.  Its effects are placed where the
    call is; the handler's response does not depend on them. *)
Definition detached (m : M unit) : M unit :=
  fun w => let o := m w in mkOutcome (inr tt) (final o) (emitted o).

(** Lines 188-210: the card path.  [Some response] is the early return of
    the [catch]. *)
Definition stripeWebhook (req : Request) (signature : string)
  : M (option Response) :=
  tryCatch
    (event <- call (constructEvent env (rawBody req) signature signingSecret) ;;
     last <- getLastWishcardDonation ;;
     bag <- call (readMetadata event) ;;
     (if strictNeq last (md_wishCardId bag) then
        setLastWishcardDonation (md_wishCardId bag) ;;
        handleDonation (stripeDonation bag)
      else ret tt) ;;
     ret None)
    (fun error =>
       emit (LogError "Webhook Error:" error) ;;
       ret (Some (badRequest error))).

(** [handlePostWebhook] (lines 177-243). *)
Definition handlePostWebhook (req : Request) : M Response :=
  early <- match stripe_signature req with
           | Some signature =>
               if truthy (Some signature) then stripeWebhook req signature
               else ret None
           | None => ret None
           end ;;
  match early with
  | Some response => ret response
  | None =>
      (if negb (strictNeq (event_type (body req)) (Some "CHECKOUT.ORDER.APPROVED"))
       then detached (paypalCallback req (getAndVerify env (rawBody req)))
       else ret tt) ;;
      ret ok200
  end.

(** ** Creating a payment intent *)

(** [req.body] of a create-intent request and [res.locals.user], which the
    route's authentication sets. *)
Record IntentRequest := mkIntentRequest
  { ir_wishCardId : JsString;
    ir_email : JsString;
    ir_agencyName : JsString;
    ir_userDonation : JsString;
    ir_user : User }.

Definition PENNY : float := 100%float.

(** Lines 148-154. *)
Definition totalItemPrice (wishCard : WishCard) (userDonation : JsString)
  : float :=
  let total :=
    parseFloat (calculateWishItemTotalPrice env (wishItemPrice wishCard)) in
  if truthy userDonation
  then (total + parseFloat (interpolate userDonation))%float
  else total.

(** Lines 147-167: what is asked of the provider. *)
Definition intentParams (req : IntentRequest) (c : WishCard) : IntentParams :=
  let total := totalItemPrice c (ir_userDonation req) in
  {| ip_amount := Math_floor (total * PENNY)%float;
     ip_currency := "usd";
     ip_receipt_email := ir_email req;
     ip_metadata :=
       {| im_wishCardId := wishCard_id c;
          im_userId := user_id (ir_user req);
          im_agencyName := ir_agencyName req;
          im_userDonation := ir_userDonation req;
          im_amount := total |} |}.

Definition createPaymentIntent (p : IntentParams) : M string :=
  fun w => mkOutcome (paymentIntents_create env p) w [CreatePaymentIntent p].

(** [handlePostCreateIntent] (lines 139-175). *)
Definition handlePostCreateIntent (req : IntentRequest) : M Response :=
  wishCard <- getWishCardByObjectId (ir_wishCardId req) ;;
  match wishCard with
  | Some wishCard =>
      client_secret <- createPaymentIntent (intentParams req wishCard) ;;
      ret {| statusCode := 200; responseBody := ClientSecret client_secret |}
  | None => ret (handleError env "Wishcard not found")
  end.

End Controller.

(** * Reading a run

    Names for what the handlers pass to their collaborators and for the
    worlds they leave behind, used to state what a run did. *)

Section Observations.

Variable env : Env.

(** One [try] block of the fan-out as a list of effects: the log line, the
    attempt and, when the attempt fails, the log entry of its error. *)
Definition attempt {P} (info : string) (mk : P -> Effect)
  (oracle : P -> option Error) (p : P) : list Effect :=
  [LogInfo info; mk p]
  ++ match oracle p with
     | Some e => [LogError "" e]
     | None => []
     end.

(** The fan-out of lines 89-136: every channel is attempted once, in
    order. *)
Definition fanOut (a : DonationArgs) (user : User) (wishCard : WishCard)
  (agency : Agency) : list Effect :=
  attempt "Sending donation confirmation email" SendDonationConfirmationEmail
    (sendDonationConfirmationEmail env) (confirmationEmail a user wishCard)
  ++ attempt "Sending agency donation email" SendAgencyDonationEmail
       (sendAgencyDonationEmail env) (agencyEmail env wishCard agency)
  ++ attempt "Sending discord donation notification"
       SendDiscordDonationNotification
       (sendDiscordDonationNotification env)
       (discordNotification a user wishCard).

(** The world after line 66 and after line 82. *)
Definition marked (wishCard : WishCard) (w : World) : World :=
  {| db := updateStatusIn (wishCard_id wishCard) "donated" (db w);
     lastWishcardDonation := lastWishcardDonation w |}.

Definition recorded (r : Donation) (w : World) : World :=
  {| db := insertDonation r (db w);
     lastWishcardDonation := lastWishcardDonation w |}.

(** The entity whose resolution fails the commit: the guards of lines 60,
    70 and 76, in program order. *)
Definition firstMissing (a : DonationArgs) (d : Db) : option Entity :=
  match lookupWishCard (wishCardId a) d with
  | None => Some Item
  | Some _ =>
      match lookupUser (userId a) d with
      | None => Some Payer
      | Some _ =>
          match lookupAgency (agencyName a) d with
          | None => Some BeneficiaryAgency
          | Some _ => None
          end
      end
  end.

(** Line 181 and line 214. *)
Definition cardPath (req : Request) : bool := truthy (stripe_signature req).

Definition walletPath (req : Request) : bool :=
  negb (strictNeq (event_type (body req)) (Some "CHECKOUT.ORDER.APPROVED")).

Definition verify (req : Request) : Error + SignedEvent :=
  constructEvent env (rawBody req) (interpolate (stripe_signature req))
    (signingSecret env).

(** Lines 214-240 and 242, reached when the card path did not return. *)
Definition walletAndAck (req : Request) (w : World) : Outcome Response :=
  if walletPath req then
    let c := paypalCallback env req (getAndVerify env (rawBody req)) w in
    mkOutcome (inr ok200) (final c) (emitted c)
  else mkOutcome (inr ok200) w [].

End Observations.

(** Delivering the same request [n] times in a row: the world after the
    last delivery and everything the deliveries did. *)
Fixpoint deliver (env : Env) (req : Request) (n : nat) (w : World)
  : World * list Effect :=
  match n with
  | O => (w, [])
  | S n' =>
      let o := handlePostWebhook env req w in
      let '(w', t) := deliver env req n' (final o) in
      (w', emitted o ++ t)
  end.

(** What the card path answers with status 400: the verification error,
    the error of reading the metadata of a verified event that has none, or,
    for a verified event that passes the slot, the error its commit
    throws. *)
Definition cardFailure (env : Env) (req : Request) (w : World) : option Error :=
  if cardPath req then
    match verify env req with
    | inl e => Some e
    | inr event =>
        match metadata event with
        | None => Some metadataTypeError
        | Some ev =>
            if strictNeq (lastWishcardDonation w) (md_wishCardId ev) then
              match value (handleDonation env (stripeDonation ev)
                             (remember (md_wishCardId ev) w)) with
              | inl e => Some e
              | inr _ => None
              end
            else None
        end
    end
  else None.

(** No ['%'] occurs in the string. *)
Definition percentFree (s : string) : bool :=
  forallb (fun c => negb (Ascii.eqb c "%")) (list_ascii_of_string s).

(** A numeral as a decimal amount [units / 10^places]; [Infinity] is
    none. *)
Definition decimalAmount (n : Numeral) : option (Z * Z) :=
  match n with
  | Infinite _ => None
  | Finite neg m e =>
      let units := if neg then (- m)%Z else m in
      Some (if (0 <=? e)%Z then (units * 10 ^ e, 0) else (units, - e))%Z
  end.

(** From the spec's words: the amount in minor units is the floor of 100
    times the sum of the item's total price and the supplemental amount,
    both taken as the decimal amounts their numerals denote (no
    supplemental amount counts as zero). *)
Definition minorUnits_spec (total : string) (supplemental : JsString)
  : option Z :=
  match option_map decimalAmount (readNumeral total) with
  | Some (Some (t, tplaces)) =>
      match (if truthy supplemental
             then option_map decimalAmount
                    (readNumeral (interpolate supplemental))
             else Some (Some (0, 0)%Z)) with
      | Some (Some (s, splaces)) =>
          Some ((100 * (t * 10 ^ splaces + s * 10 ^ tplaces))
                / 10 ^ (tplaces + splaces))%Z
      | _ => None
      end
  | _ => None
  end.

(** * The payment-success page *)

(** [req.params] of [GET /payment/success/:id/:totalAmount] and
    [res.locals.user], which is [undefined] unless something before the
    handler has set it. *)
Record SuccessRequest := mkSuccessRequest
  { sr_id : string;
    sr_totalAmount : string;
    sr_user : option User }.

(** Lines 250-256. *)
Record DonationInformation := mkDonationInformation
  { di_email : string;
    di_totalAmount : string;
    di_orderDate : string;
    di_itemName : JsString;
    di_childName : JsString }.

(** What the handler asks of the base controller: [renderView(res, view,
    {donationInformation})] or [handleError(res, error)]. *)
Inductive PageCall :=
| RenderView (view : string) (info : DonationInformation)
| HandleError (error : Error).

(** Reading [email] of a [res.locals.user] that is [undefined]
    (line 251). *)
Definition userTypeError : Error :=
  {| errorName := "TypeError";
     message := "Cannot read properties of undefined (reading 'email')" |}.

(** [handleGetPaymentSuccess] (lines 245-264).  [orderDate] is the clock,
    [moment(Date.now()).format('MMM D YYYY')]; [wishCard?.wishItemName] is
    [undefined] when there is no wish card. *)
Definition handleGetPaymentSuccess (orderDate : string) (req : SuccessRequest)
  : M PageCall :=
  tryCatch
    (wishCard <- getWishCardByObjectId (Some (sr_id req)) ;;
     user <- match sr_user req with
             | Some user => ret user
             | None => throw userTypeError
             end ;;
     ret (RenderView "payment/success"
            {| di_email := email user;
               di_totalAmount := sr_totalAmount req;
               di_orderDate := orderDate;
               di_itemName := option_map wishItemName wishCard;
               di_childName := option_map childFirstName wishCard |}))
    (fun error => ret (HandleError error)).

(** * What a commit may change *)

(** A wish card after any number of commits: as it was, or marked
    donated with every other field as it was. *)
Definition sameOrDonated (c c' : WishCard) : Prop :=
  c' = c \/ c' = setStatus "donated" c.

(** The database after a run, against the database before it: users and
    agencies are the same, donations have only been appended, and the wish
    cards are the same cards in the same order, some of them marked
    donated. *)
Definition onlyCommits (d d' : Db) : Prop :=
  users d' = users d
  /\ agencies d' = agencies d
  /\ (exists appended, donations d' = donations d ++ appended)
  /\ Forall2 sameOrDonated (wishCards d) (wishCards d').

(** How often the separator occurs in a string. *)
Fixpoint occurrences (sep : ascii) (s : string) : nat :=
  match s with
  | EmptyString => 0
  | String c rest =>
      (if Ascii.eqb c sep then 1 else 0) + occurrences sep rest
  end.

(** Handling a sequence of webhook requests one after the other: the world
    after the last one and everything the handler did. *)
Fixpoint handleAll (env : Env) (reqs : list Request) (w : World)
  : World * list Effect :=
  match reqs with
  | [] => (w, [])
  | req :: reqs' =>
      let o := handlePostWebhook env req w in
      let '(w', t) := handleAll env reqs' (final o) in
      (w', emitted o ++ t)
  end.

(** The bookkeeping of a run from world [w] to world [w'] with effects
    [t]: three dispatch attempts per donation record, no donation record
    without an item-status update, and as many donations more in the
    database as the run recorded. *)
Definition ledger (w w' : World) (t : list Effect) : Prop :=
  length (dispatches t) = 3 * donationRecords t
  /\ donationRecords t <= statusUpdates t
  /\ length (donations (db w'))
     = length (donations (db w)) + donationRecords t.

(** The world with the status of item [i] overwritten by [s]. *)
Definition withStatus (i s : string) (w : World) : World :=
  {| db := updateStatusIn i s (db w);
     lastWishcardDonation := lastWishcardDonation w |}.

(** * A concrete deployment

    One user, one agency and one wish card, with stand-ins for the external
    collaborators: a signature is valid when it is the signing secret
    prefixed by ["signed:"], the card event's metadata is read off the raw
    body, the wallet provider verifies every event, and the Discord channel
    is down. *)

Module Demo.

Definition ada : User :=
  {| user_id := "u1"; email := "ada@example.org";
     fName := "Ada"; lName := "Lovelace" |}.

Definition hope : Agency :=
  {| agency_name := "HopeAgency";
     accountManager_email := "manager@hope.example";
     agencyAddress :=
       {| address1 := "1 Main St"; address2 := "Suite 2"; city := "Springfield";
          state := "IL"; zipcode := "62701" |} |}.

Definition bicycle : WishCard :=
  {| wishCard_id := "i9"; status := "published"; belongsTo_id := "a1";
     childFirstName := "Sam"; wishItemName := "Bicycle";
     wishItemPrice := 30%float;
     wishItemURL := "https://shop.example/bicycle" |}.

Definition store : Db :=
  {| users := [ada]; wishCards := [bicycle]; agencies := [hope];
     donations := [] |}.

Definition world : World := initialWorld store.

Definition signatureError : Error :=
  {| errorName := "StripeSignatureVerificationError";
     message := "No signatures found matching the expected signature for payload." |}.

Definition discordDown : Error := newError "Discord webhook unreachable".

Definition eventOf (raw : string) : StripeEvent :=
  let data := split "|" raw in
  {| md_wishCardId := index data 0;
     md_userId := index data 1;
     md_amount := index data 2;
     md_userDonation := index data 3;
     md_agencyName := index data 4 |}.

Definition env : Env :=
  {| config :=
       {| NODE_ENV := "production"; SIGNING_SECRET := "whsec_live";
          SIGNING_SECRET_LOCAL := None |};
     constructEvent := fun raw signature secret =>
       if signature =? "signed:" ++ secret then inr (carrying (eventOf raw))
       else inl signatureError;
     getAndVerify := fun _ => None;
     sendDonationConfirmationEmail := fun _ => None;
     sendAgencyDonationEmail := fun _ => None;
     sendDiscordDonationNotification := fun _ => Some discordDown;
     formattedToday := "Nov 3rd, 2026";
     calculateWishItemTotalPrice := fun _ => "32.50";
     paymentIntents_create := fun _ => inr "pi_3N_secret_x7";
     handleError := fun msg => {| statusCode := 400; responseBody := Text msg |} |}.

Definition noBody : WebhookBody := {| event_type := None; purchase_units := [] |}.

(** A card event for the bicycle, correctly signed. *)
Definition cardRequest : Request :=
  {| stripe_signature := Some "signed:whsec_live";
     rawBody := "i9|u1|37.5|5.00|HopeAgency";
     body := noBody |}.

(** The same event with a signature that does not verify. *)
Definition forgedRequest : Request :=
  {| stripe_signature := Some "signed:guess";
     rawBody := "i9|u1|37.5|5.00|HopeAgency";
     body := noBody |}.

(** A correctly signed card event for a wish card that does not exist. *)
Definition lostItemRequest : Request :=
  {| stripe_signature := Some "signed:whsec_live";
     rawBody := "i404|u1|37.5|5.00|HopeAgency";
     body := noBody |}.

(** A correctly signed card event whose payer does not exist. *)
Definition lostPayerRequest : Request :=
  {| stripe_signature := Some "signed:whsec_live";
     rawBody := "i9|u404|37.5|5.00|HopeAgency";
     body := noBody |}.

(** A wallet event for the bicycle. *)
Definition walletRequest : Request :=
  {| stripe_signature := None;
     rawBody := "{paypal event}";
     body :=
       {| event_type := Some "CHECKOUT.ORDER.APPROVED";
          purchase_units :=
            [{| reference_id := "u1%i9%5.00%HopeAgency";
                amount_value := "37.50" |}] |} |}.

Definition walletDonation : DonationArgs :=
  {| service := "Paypal"; userId := Some "u1"; wishCardId := Some "i9";
     amount := Some "37.50"; userDonation := Some "5.00";
     agencyName := Some "HopeAgency" |}.

Definition lostPayerDonation : DonationArgs :=
  {| service := "Paypal"; userId := Some "u404"; wishCardId := Some "i9";
     amount := Some "37.50"; userDonation := Some "5.00";
     agencyName := Some "HopeAgency" |}.

Definition lostItemDonation : DonationArgs :=
  {| service := "Paypal"; userId := Some "u1"; wishCardId := Some "i404";
     amount := Some "37.50"; userDonation := Some "5.00";
     agencyName := Some "HopeAgency" |}.

(** Ada asks to donate the bicycle with a supplemental amount. *)
Definition intentRequest (userDonation : JsString) : IntentRequest :=
  {| ir_wishCardId := Some "i9";
     ir_email := Some "ada@example.org";
     ir_agencyName := Some "HopeAgency";
     ir_userDonation := userDonation;
     ir_user := ada |}.

End Demo.

(** * Further concrete inputs

    A second wish card, a card event that carries no metadata keys (any
    event of the card processor that is not about a donation), a wallet
    provider that rejects every event, and malformed wallet payloads. *)

Module Scenario.

Definition doll : WishCard :=
  {| wishCard_id := "i7"; status := "published"; belongsTo_id := "a1";
     childFirstName := "Kim"; wishItemName := "Doll";
     wishItemPrice := 12%float;
     wishItemURL := "https://shop.example/doll" |}.

Definition store : Db :=
  {| users := [Demo.ada]; wishCards := [Demo.bicycle; doll];
     agencies := [Demo.hope]; donations := [] |}.

Definition world : World := initialWorld store.

(** A correctly signed card event for the doll. *)
Definition dollRequest : Request :=
  {| stripe_signature := Some "signed:whsec_live";
     rawBody := "i7|u1|14.5|0|HopeAgency";
     body := Demo.noBody |}.

Definition bareEvent : StripeEvent :=
  {| md_wishCardId := None; md_userId := None; md_amount := None;
     md_userDonation := None; md_agencyName := None |}.

Definition paypalDown : Error := newError "webhook id not found".

(** As [Demo.env], but the raw body ["ping"] is an event with an empty
    metadata bag, the raw body ["payout"] an event without metadata, and the
    wallet provider verifies nothing. *)
Definition env : Env :=
  {| config := config Demo.env;
     constructEvent := fun raw signature secret =>
       if signature =? "signed:" ++ secret then
         if raw =? "ping" then inr (carrying bareEvent)
         else if raw =? "payout" then inr {| metadata := None |}
         else inr (carrying (Demo.eventOf raw))
       else inl Demo.signatureError;
     getAndVerify := fun _ => Some paypalDown;
     sendDonationConfirmationEmail := sendDonationConfirmationEmail Demo.env;
     sendAgencyDonationEmail := sendAgencyDonationEmail Demo.env;
     sendDiscordDonationNotification :=
       sendDiscordDonationNotification Demo.env;
     formattedToday := formattedToday Demo.env;
     calculateWishItemTotalPrice := calculateWishItemTotalPrice Demo.env;
     paymentIntents_create := paymentIntents_create Demo.env;
     handleError := handleError Demo.env |}.

Definition pingRequest : Request :=
  {| stripe_signature := Some "signed:whsec_live";
     rawBody := "ping";
     body := Demo.noBody |}.

Definition payoutRequest : Request :=
  {| stripe_signature := Some "signed:whsec_live";
     rawBody := "payout";
     body := Demo.noBody |}.

(** Neither a signature header nor the wallet event type. *)
Definition strangerRequest : Request :=
  {| stripe_signature := Some "";
     rawBody := "{}";
     body := {| event_type := Some "PAYMENT.SALE.COMPLETED";
                purchase_units := [] |} |}.

(** Wallet events: no purchase unit, and a reference without separator. *)
Definition emptyWalletRequest : Request :=
  {| stripe_signature := None;
     rawBody := "{paypal event}";
     body := {| event_type := Some "CHECKOUT.ORDER.APPROVED";
                purchase_units := [] |} |}.

Definition garbledWalletRequest : Request :=
  {| stripe_signature := None;
     rawBody := "{paypal event}";
     body :=
       {| event_type := Some "CHECKOUT.ORDER.APPROVED";
          purchase_units :=
            [{| reference_id := "u1-i9-5.00-HopeAgency";
                amount_value := "37.50" |}] |} |}.

(** A correctly signed card event for the bicycle from another payer, for
    another amount. *)
Definition rivalRequest : Request :=
  {| stripe_signature := Some "signed:whsec_live";
     rawBody := "i9|u2|99|60|OtherAgency";
     body := Demo.noBody |}.

(** A wallet event whose agency name contains the separator. *)
Definition tailedWalletRequest : Request :=
  {| stripe_signature := None;
     rawBody := "{paypal event}";
     body :=
       {| event_type := Some "CHECKOUT.ORDER.APPROVED";
          purchase_units :=
            [{| reference_id := "u1%i9%5.00%Hope%Agency";
                amount_value := "37.50" |}] |} |}.

Definition successRequest (id : string) (user : option User)
  : SuccessRequest :=
  {| sr_id := id; sr_totalAmount := "37.50"; sr_user := user |}.

End Scenario.

(** * Properties *)

(** ** JavaScript values and effect counts *)

Lemma strictNeq_refl (a : JsString) : strictNeq a a = false.
Proof.
  destruct a as [s|]; simpl; [|reflexivity].
  now rewrite String.eqb_refl.
Qed.

Lemma strictNeq_true_iff (a b : JsString) : strictNeq a b = true <-> a <> b.
Proof.
  destruct a as [x|], b as [y|]; simpl; split; intro H;
    try congruence; try reflexivity.
  - intro E. injection E as ->. rewrite String.eqb_refl in H. discriminate.
  - destruct (String.eqb_spec x y) as [->|]; [congruence | reflexivity].
Qed.

Lemma strictNeq_false_iff (a b : JsString) : strictNeq a b = false <-> a = b.
Proof.
  split.
  - intro H. destruct a as [x|], b as [y|]; simpl in H; try discriminate; auto.
    destruct (String.eqb_spec x y) as [->|]; [reflexivity | discriminate].
  - intros ->. apply strictNeq_refl.
Qed.

Lemma statusUpdates_app (s t : list Effect) :
  statusUpdates (s ++ t) = statusUpdates s + statusUpdates t.
Proof. unfold statusUpdates. now rewrite filter_app, length_app. Qed.

Lemma donationRecords_app (s t : list Effect) :
  donationRecords (s ++ t) = donationRecords s + donationRecords t.
Proof. unfold donationRecords. now rewrite filter_app, length_app. Qed.

Section Properties.

Variable env : Env.

(** ** The commit *)

Lemma attempt_run {P} (info : string) (mk : P -> Effect)
  (oracle : P -> option Error) (p : P) (w : World) :
  tryCatch (emit (LogInfo info) ;; send mk oracle p)
           (fun error => emit (LogError "" error)) w
  = mkOutcome (inr tt) w (attempt info mk oracle p).
Proof.
  unfold tryCatch, bind, emit, send, attempt; simpl.
  destruct (oracle p); reflexivity.
Qed.

(** The four ways through [handleDonation]. *)
Lemma handleDonation_no_item (a : DonationArgs) (w : World) :
  lookupWishCard (wishCardId a) (db w) = None ->
  handleDonation env a w = mkOutcome (inl (notFound Item a)) w [].
Proof.
  intro H. unfold handleDonation, bind, getUserByObjectId,
    getWishCardByObjectId, getAgencyByName; simpl.
  rewrite H. reflexivity.
Qed.

Lemma handleDonation_no_payer (a : DonationArgs) (w : World) (c : WishCard) :
  lookupWishCard (wishCardId a) (db w) = Some c ->
  lookupUser (userId a) (db w) = None ->
  handleDonation env a w
  = mkOutcome (inl (notFound Payer a)) (marked c w)
      [UpdateWishCard (wishCard_id c) "donated"].
Proof.
  intros Hc Hu. unfold handleDonation, bind, getUserByObjectId,
    getWishCardByObjectId, getAgencyByName; simpl.
  rewrite Hc, Hu. reflexivity.
Qed.

Lemma handleDonation_no_agency (a : DonationArgs) (w : World) (c : WishCard)
  (u : User) :
  lookupWishCard (wishCardId a) (db w) = Some c ->
  lookupUser (userId a) (db w) = Some u ->
  lookupAgency (agencyName a) (db w) = None ->
  handleDonation env a w
  = mkOutcome (inl (notFound BeneficiaryAgency a)) (marked c w)
      [UpdateWishCard (wishCard_id c) "donated"].
Proof.
  intros Hc Hu Hg. unfold handleDonation, bind, getUserByObjectId,
    getWishCardByObjectId, getAgencyByName; simpl.
  rewrite Hc, Hu, Hg. reflexivity.
Qed.

Lemma notifyDonor_run (a : DonationArgs) (u : User) (c : WishCard) (w : World) :
  notifyDonor env a u c w
  = mkOutcome (inr tt) w
      (attempt "Sending donation confirmation email"
         SendDonationConfirmationEmail (sendDonationConfirmationEmail env)
         (confirmationEmail a u c)).
Proof. apply attempt_run. Qed.

Lemma notifyAgency_run (c : WishCard) (g : Agency) (w : World) :
  notifyAgency env c g w
  = mkOutcome (inr tt) w
      (attempt "Sending agency donation email" SendAgencyDonationEmail
         (sendAgencyDonationEmail env) (agencyEmail env c g)).
Proof. apply attempt_run. Qed.

Lemma notifyDiscord_run (a : DonationArgs) (u : User) (c : WishCard)
  (w : World) :
  notifyDiscord env a u c w
  = mkOutcome (inr tt) w
      (attempt "Sending discord donation notification"
         SendDiscordDonationNotification
         (sendDiscordDonationNotification env) (discordNotification a u c)).
Proof. apply attempt_run. Qed.

Lemma handleDonation_committed (a : DonationArgs) (w : World) (c : WishCard)
  (u : User) (g : Agency) :
  lookupWishCard (wishCardId a) (db w) = Some c ->
  lookupUser (userId a) (db w) = Some u ->
  lookupAgency (agencyName a) (db w) = Some g ->
  handleDonation env a w
  = mkOutcome (inr tt) (recorded (donationOf a u c) (marked c w))
      ([UpdateWishCard (wishCard_id c) "donated";
        CreateNewDonation (donationOf a u c)]
       ++ fanOut env a u c g).
Proof.
  intros Hc Hu Hg.
  unfold handleDonation, bind, getUserByObjectId, getWishCardByObjectId,
    getAgencyByName.
  cbn [value final emitted]. rewrite Hc, Hu, Hg.
  unfold updateWishCardByObjectId, createNewDonation.
  cbn [value final emitted].
  rewrite notifyDonor_run, notifyAgency_run, notifyDiscord_run.
  cbn [value final emitted app]. unfold fanOut.
  reflexivity.
Qed.

Lemma handleDonation_value (a : DonationArgs) (w : World) :
  value (handleDonation env a w)
  = match firstMissing a (db w) with
    | Some which => inl (notFound which a)
    | None => inr tt
    end.
Proof.
  unfold firstMissing.
  destruct (lookupWishCard (wishCardId a) (db w)) as [c|] eqn:Hc.
  - destruct (lookupUser (userId a) (db w)) as [u|] eqn:Hu.
    + destruct (lookupAgency (agencyName a) (db w)) as [g|] eqn:Hg.
      * now rewrite (handleDonation_committed a w c u g).
      * now rewrite (handleDonation_no_agency a w c u).
    + now rewrite (handleDonation_no_payer a w c).
  - now rewrite handleDonation_no_item.
Qed.

(** The commit never touches the dedup slot. *)
Lemma handleDonation_slot (a : DonationArgs) (w : World) :
  lastWishcardDonation (final (handleDonation env a w))
  = lastWishcardDonation w.
Proof.
  destruct (lookupWishCard (wishCardId a) (db w)) as [c|] eqn:Hc.
  - destruct (lookupUser (userId a) (db w)) as [u|] eqn:Hu.
    + destruct (lookupAgency (agencyName a) (db w)) as [g|] eqn:Hg.
      * now rewrite (handleDonation_committed a w c u g).
      * now rewrite (handleDonation_no_agency a w c u).
    + now rewrite (handleDonation_no_payer a w c).
  - now rewrite handleDonation_no_item.
Qed.

Lemma attempt_counts {P} (info : string) (mk : P -> Effect)
  (oracle : P -> option Error) (p : P) :
  isStatusUpdate (mk p) = false ->
  isDonationRecord (mk p) = false ->
  statusUpdates (attempt info mk oracle p) = 0
  /\ donationRecords (attempt info mk oracle p) = 0.
Proof.
  intros Hs Hd. unfold attempt, statusUpdates, donationRecords.
  destruct (oracle p); simpl; rewrite Hs, Hd; auto.
Qed.

(** The fan-out neither updates an item nor records a donation. *)
Lemma fanOut_counts (a : DonationArgs) (u : User) (c : WishCard) (g : Agency) :
  statusUpdates (fanOut env a u c g) = 0 /\ donationRecords (fanOut env a u c g) = 0.
Proof.
  unfold fanOut.
  rewrite !statusUpdates_app, !donationRecords_app.
  repeat match goal with
  | |- context [attempt ?i ?m ?o ?p] =>
      let H := fresh in
      destruct (attempt_counts i m o p eq_refl eq_refl) as [H ?];
      rewrite H; clear H
  end.
  split; [reflexivity|]. 
  repeat match goal with H : donationRecords _ = 0 |- _ => rewrite H; clear H end.
  reflexivity.
Qed.

Lemma fanOut_dispatches (a : DonationArgs) (u : User) (c : WishCard)
  (g : Agency) :
  dispatches (fanOut env a u c g)
  = [PayerConfirmation; AgencyConfirmation; PublicAnnouncement].
Proof.
  unfold fanOut, attempt, dispatches.
  destruct (sendDonationConfirmationEmail env _),
    (sendAgencyDonationEmail env _),
    (sendDiscordDonationNotification env _); reflexivity.
Qed.

(** ** The webhook *)

Lemma stripeWebhook_run (req : Request) (s : string) (w : World) :
  stripeWebhook env req s w
  = match constructEvent env (rawBody req) s (signingSecret env) with
    | inl e =>
        mkOutcome (inr (Some (badRequest e))) w [LogError "Webhook Error:" e]
    | inr event =>
        match metadata event with
        | None =>
            mkOutcome (inr (Some (badRequest metadataTypeError))) w
              [LogError "Webhook Error:" metadataTypeError]
        | Some ev =>
            if strictNeq (lastWishcardDonation w) (md_wishCardId ev) then
              let c := handleDonation env (stripeDonation ev)
                         (remember (md_wishCardId ev) w) in
              match value c with
              | inl e =>
                  mkOutcome (inr (Some (badRequest e))) (final c)
                    (emitted c ++ [LogError "Webhook Error:" e])
              | inr _ => mkOutcome (inr None) (final c) (emitted c)
              end
            else mkOutcome (inr None) w []
        end
    end.
Proof.
  unfold stripeWebhook, tryCatch, bind, call, getLastWishcardDonation,
    readMetadata.
  cbn [value final emitted].
  destruct (constructEvent env (rawBody req) s (signingSecret env))
    as [e|[[ev|]]]; [reflexivity| |reflexivity].
  cbn [value final emitted metadata].
  destruct (strictNeq (lastWishcardDonation w) (md_wishCardId ev));
    [|reflexivity].
  unfold setLastWishcardDonation; cbn [value final emitted app].
  destruct (handleDonation env (stripeDonation ev)
              (remember (md_wishCardId ev) w)) as [v f t].
  cbn [value final emitted app].
  destruct v as [e|[]]; cbn [value final emitted app ret emit];
    rewrite ?app_nil_r; reflexivity.
Qed.

Lemma handlePostWebhook_no_card (req : Request) (w : World) :
  cardPath req = false ->
  handlePostWebhook env req w = walletAndAck env req w.
Proof.
  unfold cardPath, handlePostWebhook, walletAndAck. intro H.
  fold (walletPath req).
  destruct (stripe_signature req) as [s|]; [rewrite H|];
    unfold bind, ret, detached; cbn [value final emitted app];
    destruct (walletPath req); cbn [value final emitted app];
    rewrite ?app_nil_r; reflexivity.
Qed.

Lemma handlePostWebhook_card (req : Request) (w : World) :
  cardPath req = true ->
  handlePostWebhook env req w
  = let o := stripeWebhook env req (interpolate (stripe_signature req)) w in
    match value o with
    | inr (Some response) => mkOutcome (inr response) (final o) (emitted o)
    | inr None =>
        let o' := walletAndAck env req (final o) in
        mkOutcome (value o') (final o') (emitted o ++ emitted o')
    | inl e => mkOutcome (inl e) (final o) (emitted o)
    end.
Proof.
  unfold cardPath, handlePostWebhook, walletAndAck. intro H.
  fold (walletPath req).
  destruct (stripe_signature req) as [s|]; [|discriminate].
  rewrite H. cbn [interpolate]. unfold bind at 1.
  destruct (stripeWebhook env req s w) as [v f t].
  cbn [value final emitted].
  destruct v as [e|[r|]]; [reflexivity| |].
  - unfold ret; cbn [value final emitted]. now rewrite app_nil_r.
  - unfold bind, ret, detached; cbn [value final emitted].
    destruct (walletPath req); cbn [value final emitted];
      rewrite ?app_nil_r; reflexivity.
Qed.

End Properties.

(** * The commit: resolution misses and notification isolation *)

(** C6.  When the intent's item id resolves to no wish card, the commit
    fails with the not-found error of the item, and it performs neither an
    item-status update nor a donation-record creation: it has no effect at
    all and leaves the world as it was. *)
Theorem commit_item_not_found (env : Env) (a : DonationArgs) (w : World) :
  lookupWishCard (wishCardId a) (db w) = None ->
  let o := handleDonation env a w in
  value o = inl (notFound Item a)
  /\ statusUpdates (emitted o) = 0
  /\ donationRecords (emitted o) = 0
  /\ emitted o = []
  /\ final o = w.
Proof.
  intros H o. subst o. rewrite (handleDonation_no_item env a w H).
  repeat split.
Qed.

Lemma commit_item_not_found_witness :
  lookupWishCard (wishCardId Demo.lostItemDonation) (db Demo.world) = None
  /\ value (handleDonation Demo.env Demo.lostItemDonation Demo.world)
     = inl (notFound Item Demo.lostItemDonation)
  /\ final (handleDonation Demo.env Demo.lostItemDonation Demo.world)
     = Demo.world.
Proof.
  split; [reflexivity|].
  pose proof (commit_item_not_found Demo.env Demo.lostItemDonation Demo.world
                eq_refl) as H.
  cbv zeta in H. destruct H as (Hv & _ & _ & _ & Hf).
  split; assumption.
Defined.

(** A resolution misses exactly when [firstMissing] names an entity. *)
Lemma firstMissing_some (a : DonationArgs) (d : Db) :
  lookupUser (userId a) d = None
  \/ lookupWishCard (wishCardId a) d = None
  \/ lookupAgency (agencyName a) d = None ->
  exists which, firstMissing a d = Some which.
Proof.
  unfold firstMissing. intros [H | [H | H]];
    destruct (lookupWishCard (wishCardId a) d);
    destruct (lookupUser (userId a) d);
    destruct (lookupAgency (agencyName a) d);
    try discriminate; eauto.
Qed.

(** C2 as stated fails.  The payer is missing and the wish card is there:
    line 66 has already marked the card when line 70 throws. *)
Lemma commit_marks_item_before_payer_check :
  lookupUser (userId Demo.lostPayerDonation) (db Demo.world) = None
  /\ value (handleDonation Demo.env Demo.lostPayerDonation Demo.world)
     = inl (notFound Payer Demo.lostPayerDonation)
  /\ emitted (handleDonation Demo.env Demo.lostPayerDonation Demo.world)
     = [UpdateWishCard "i9" "donated"]
  /\ map status (wishCards (db Demo.world)) = ["published"]
  /\ map status
       (wishCards
          (db (final (handleDonation Demo.env Demo.lostPayerDonation
                        Demo.world))))
     = ["donated"].
Proof. repeat split. Qed.

(** C2, as the code has it.  When a resolution misses, the commit fails
    with the not-found error of the first entity missing in the order item,
    payer, agency; no donation record is created and no notification is
    dispatched; and when it is the item that is missing, nothing is mutated
    at all. *)
Theorem commit_resolution_miss (env : Env) (a : DonationArgs) (w : World) :
  lookupUser (userId a) (db w) = None
  \/ lookupWishCard (wishCardId a) (db w) = None
  \/ lookupAgency (agencyName a) (db w) = None ->
  let o := handleDonation env a w in
  exists which,
    firstMissing a (db w) = Some which
    /\ value o = inl (notFound which a)
    /\ donationRecords (emitted o) = 0
    /\ donations (db (final o)) = donations (db w)
    /\ dispatches (emitted o) = []
    /\ (which = Item -> emitted o = [] /\ final o = w).
Proof.
  intros H o. destruct (firstMissing_some a (db w) H) as [which Hw].
  exists which. split; [exact Hw|]. subst o.
  unfold firstMissing in Hw.
  destruct (lookupWishCard (wishCardId a) (db w)) as [c|] eqn:Hc.
  - destruct (lookupUser (userId a) (db w)) as [u|] eqn:Hu.
    + destruct (lookupAgency (agencyName a) (db w)) as [g|] eqn:Hg;
        [discriminate|].
      injection Hw as <-.
      rewrite (handleDonation_no_agency env a w c u Hc Hu Hg).
      repeat split; discriminate.
    + injection Hw as <-.
      rewrite (handleDonation_no_payer env a w c Hc Hu).
      repeat split; discriminate.
  - injection Hw as <-.
    rewrite (handleDonation_no_item env a w Hc).
    repeat split.
Qed.

Lemma commit_resolution_miss_witness :
  exists which,
    firstMissing Demo.lostPayerDonation (db Demo.world) = Some which
    /\ value (handleDonation Demo.env Demo.lostPayerDonation Demo.world)
       = inl (notFound which Demo.lostPayerDonation).
Proof.
  destruct (commit_resolution_miss Demo.env Demo.lostPayerDonation Demo.world
              (or_introl eq_refl)) as (which & Hw & Hv & _).
  exists which. split; assumption.
Defined.

(** C7.  Once payer, item and agency resolve, the commit returns normally
    whatever the three channels do: each of the three dispatches is
    attempted exactly once, in the order payer confirmation, agency
    confirmation, public announcement, every failure is logged, and exactly
    one item-status update and one donation record precede them. *)
Theorem notification_failures_are_isolated (env : Env) (a : DonationArgs)
  (w : World) (c : WishCard) (u : User) (g : Agency) :
  lookupWishCard (wishCardId a) (db w) = Some c ->
  lookupUser (userId a) (db w) = Some u ->
  lookupAgency (agencyName a) (db w) = Some g ->
  let o := handleDonation env a w in
  value o = inr tt
  /\ dispatches (emitted o)
     = [PayerConfirmation; AgencyConfirmation; PublicAnnouncement]
  /\ (forall e, sendDonationConfirmationEmail env (confirmationEmail a u c)
                = Some e -> In (LogError "" e) (emitted o))
  /\ (forall e, sendAgencyDonationEmail env (agencyEmail env c g) = Some e ->
                In (LogError "" e) (emitted o))
  /\ (forall e, sendDiscordDonationNotification env (discordNotification a u c)
                = Some e -> In (LogError "" e) (emitted o))
  /\ statusUpdates (emitted o) = 1
  /\ donationRecords (emitted o) = 1.
Proof.
  intros Hc Hu Hg o. subst o.
  rewrite (handleDonation_committed env a w c u g Hc Hu Hg).
  cbn [value emitted app].
  split; [reflexivity|].
  split; [apply (fanOut_dispatches env)|].
  destruct (fanOut_counts env a u c g) as [Hs Hd].
  repeat split.
  - intros e He. right; right. unfold fanOut, attempt. rewrite He.
    cbn. auto.
  - intros e He. right; right. unfold fanOut.
    apply in_or_app; right. apply in_or_app; left.
    unfold attempt. rewrite He. cbn. auto.
  - intros e He. right; right. unfold fanOut.
    apply in_or_app; right. apply in_or_app; right.
    unfold attempt. rewrite He. cbn. auto.
  - change (statusUpdates ([UpdateWishCard (wishCard_id c) "donated";
              CreateNewDonation (donationOf a u c)] ++ fanOut env a u c g) = 1).
    rewrite statusUpdates_app, Hs. reflexivity.
  - change (donationRecords ([UpdateWishCard (wishCard_id c) "donated";
              CreateNewDonation (donationOf a u c)] ++ fanOut env a u c g) = 1).
    rewrite donationRecords_app, Hd. reflexivity.
Qed.

(** In the concrete deployment the Discord channel fails: both emails have
    been attempted before it, its failure is logged, and the commit returns
    normally. *)
Lemma notification_failures_are_isolated_witness :
  sendDiscordDonationNotification Demo.env
    (discordNotification Demo.walletDonation Demo.ada Demo.bicycle)
  = Some Demo.discordDown
  /\ value (handleDonation Demo.env Demo.walletDonation Demo.world) = inr tt
  /\ dispatches (emitted (handleDonation Demo.env Demo.walletDonation Demo.world))
     = [PayerConfirmation; AgencyConfirmation; PublicAnnouncement]
  /\ In (LogError "" Demo.discordDown)
       (emitted (handleDonation Demo.env Demo.walletDonation Demo.world)).
Proof.
  split; [reflexivity|].
  pose proof (notification_failures_are_isolated Demo.env Demo.walletDonation
                Demo.world Demo.bicycle Demo.ada Demo.hope
                eq_refl eq_refl eq_refl) as H.
  cbv zeta in H. destruct H as (Hv & Hd & _ & _ & Hx & _).
  split; [exact Hv | split; [exact Hd | exact (Hx _ eq_refl)]].
Defined.

(** * The webhook: verification, the dedup slot and the response *)

Section Webhook.

Variable env : Env.

(** The three ways through the card path (lines 181-211). *)
Lemma card_rejected (req : Request) (w : World) (e : Error) :
  cardPath req = true ->
  verify env req = inl e ->
  handlePostWebhook env req w
  = mkOutcome (inr (badRequest e)) w [LogError "Webhook Error:" e].
Proof.
  intros Hp Hv. rewrite (handlePostWebhook_card env req w Hp).
  rewrite stripeWebhook_run. fold (verify env req). rewrite Hv. reflexivity.
Qed.

Lemma card_no_metadata (req : Request) (w : World) (event : SignedEvent) :
  cardPath req = true ->
  verify env req = inr event ->
  metadata event = None ->
  handlePostWebhook env req w
  = mkOutcome (inr (badRequest metadataTypeError)) w
      [LogError "Webhook Error:" metadataTypeError].
Proof.
  intros Hp Hv Hm. rewrite (handlePostWebhook_card env req w Hp).
  rewrite stripeWebhook_run. fold (verify env req). rewrite Hv, Hm.
  reflexivity.
Qed.

Lemma card_duplicate (req : Request) (w : World) (ev : StripeEvent) :
  cardPath req = true ->
  verify env req = inr (carrying ev) ->
  lastWishcardDonation w = md_wishCardId ev ->
  handlePostWebhook env req w = walletAndAck env req w.
Proof.
  intros Hp Hv Hs. rewrite (handlePostWebhook_card env req w Hp).
  rewrite stripeWebhook_run. fold (verify env req). rewrite Hv.
  cbn [carrying metadata].
  rewrite Hs, strictNeq_refl. cbn [value final emitted app].
  now destruct (walletAndAck env req w).
Qed.

Lemma card_fresh (req : Request) (w : World) (ev : StripeEvent) :
  cardPath req = true ->
  verify env req = inr (carrying ev) ->
  lastWishcardDonation w <> md_wishCardId ev ->
  handlePostWebhook env req w
  = let c := handleDonation env (stripeDonation ev)
               (remember (md_wishCardId ev) w) in
    match value c with
    | inl e =>
        mkOutcome (inr (badRequest e)) (final c)
          (emitted c ++ [LogError "Webhook Error:" e])
    | inr _ =>
        let o := walletAndAck env req (final c) in
        mkOutcome (value o) (final o) (emitted c ++ emitted o)
    end.
Proof.
  intros Hp Hv Hs. rewrite (handlePostWebhook_card env req w Hp).
  rewrite stripeWebhook_run. fold (verify env req). rewrite Hv.
  cbn [carrying metadata].
  apply strictNeq_true_iff in Hs. rewrite Hs. cbv zeta.
  destruct (value (handleDonation env (stripeDonation ev)
                     (remember (md_wishCardId ev) w))) as [e|[]];
    reflexivity.
Qed.

Lemma walletAndAck_idle (req : Request) (w : World) :
  walletPath req = false ->
  walletAndAck env req w = mkOutcome (inr ok200) w [].
Proof. unfold walletAndAck. now intros ->. Qed.

Lemma walletAndAck_value (req : Request) (w : World) :
  value (walletAndAck env req w) = inr ok200.
Proof. unfold walletAndAck. now destruct (walletPath req). Qed.

(** The wallet path with a verified event (lines 221-236). *)
Lemma wallet_verified (req : Request) (w : World) (a : DonationArgs) :
  walletPath req = true ->
  getAndVerify env (rawBody req) = None ->
  paypalDonation req = inr a ->
  walletAndAck env req w
  = let c := handleDonation env a w in
    mkOutcome (inr ok200) (final c) (emitted c).
Proof.
  intros Hp Hv Ha. unfold walletAndAck, paypalCallback. rewrite Hp, Hv.
  unfold bind, call. cbn [value final emitted]. rewrite Ha.
  cbn [value final emitted app]. reflexivity.
Qed.

End Webhook.

(** C4.  A request that carries a signature header failing verification
    mutates nothing: no item-status update, no donation record, no
    dispatch, the database and the dedup slot are as before; the only effect
    is the error log entry, and the response is 400, a client error. *)
Theorem invalid_signature_rejected (env : Env) (req : Request) (w : World)
  (e : Error) :
  cardPath req = true ->
  verify env req = inl e ->
  let o := handlePostWebhook env req w in
  final o = w
  /\ quiet (emitted o) = true
  /\ emitted o = [LogError "Webhook Error:" e]
  /\ (exists r, value o = inr r
                /\ (400 <= statusCode r < 500)%Z
                /\ responseBody r = Text ("Webhook Error: " ++ errorToString e)).
Proof.
  intros Hp Hv o. subst o. rewrite (card_rejected env req w e Hp Hv).
  cbn [value final emitted]. repeat split.
  exists (badRequest e). repeat split; cbn; lia.
Qed.

Lemma invalid_signature_rejected_witness :
  cardPath Demo.forgedRequest = true
  /\ verify Demo.env Demo.forgedRequest = inl Demo.signatureError
  /\ final (handlePostWebhook Demo.env Demo.forgedRequest Demo.world)
     = Demo.world
  /\ quiet (emitted (handlePostWebhook Demo.env Demo.forgedRequest Demo.world))
     = true.
Proof.
  split; [reflexivity|]. split; [reflexivity|].
  pose proof (invalid_signature_rejected Demo.env Demo.forgedRequest Demo.world
                Demo.signatureError eq_refl eq_refl) as H.
  cbv zeta in H. destruct H as (Hf & Hq & _).
  split; assumption.
Defined.

Section Redelivery.

Variable env : Env.

(** A commit that throws has recorded no donation. *)
Lemma handleDonation_failed (a : DonationArgs) (w : World) (e : Error) :
  value (handleDonation env a w) = inl e ->
  donationRecords (emitted (handleDonation env a w)) = 0
  /\ donations (db (final (handleDonation env a w))) = donations (db w).
Proof.
  destruct (lookupWishCard (wishCardId a) (db w)) as [c|] eqn:Hc.
  - destruct (lookupUser (userId a) (db w)) as [u|] eqn:Hu.
    + destruct (lookupAgency (agencyName a) (db w)) as [g|] eqn:Hg.
      * rewrite (handleDonation_committed env a w c u g Hc Hu Hg).
        discriminate.
      * rewrite (handleDonation_no_agency env a w c u Hc Hu Hg). now split.
    + rewrite (handleDonation_no_payer env a w c Hc Hu). now split.
  - rewrite (handleDonation_no_item env a w Hc). now split.
Qed.

(** After a verified card event the slot holds the event's item id,
    whether the commit ran, failed or was skipped. *)
Lemma card_slot_after (req : Request) (w : World) (ev : StripeEvent) :
  cardPath req = true ->
  verify env req = inr (carrying ev) ->
  walletPath req = false ->
  lastWishcardDonation (final (handlePostWebhook env req w))
  = md_wishCardId ev.
Proof.
  intros Hp Hv Hw.
  destruct (strictNeq (lastWishcardDonation w) (md_wishCardId ev)) eqn:Hs.
  - apply strictNeq_true_iff in Hs.
    rewrite (card_fresh env req w ev Hp Hv Hs). cbv zeta.
    pose proof (handleDonation_slot env (stripeDonation ev)
                  (remember (md_wishCardId ev) w)) as Hslot.
    destruct (value (handleDonation env (stripeDonation ev)
                       (remember (md_wishCardId ev) w))) as [e|[]].
    + exact Hslot.
    + rewrite (walletAndAck_idle env req _ Hw). exact Hslot.
  - apply strictNeq_false_iff in Hs.
    rewrite (card_duplicate env req w ev Hp Hv Hs).
    rewrite (walletAndAck_idle env req w Hw). exact Hs.
Qed.

(** A verified card event for the item the slot remembers does nothing. *)
Lemma card_duplicate_idle (req : Request) (w : World) (ev : StripeEvent) :
  cardPath req = true ->
  verify env req = inr (carrying ev) ->
  walletPath req = false ->
  lastWishcardDonation w = md_wishCardId ev ->
  handlePostWebhook env req w = mkOutcome (inr ok200) w [].
Proof.
  intros Hp Hv Hw Hs. rewrite (card_duplicate env req w ev Hp Hv Hs).
  apply walletAndAck_idle, Hw.
Qed.

Lemma deliver_duplicates (req : Request) (ev : StripeEvent) (n : nat) :
  cardPath req = true ->
  verify env req = inr (carrying ev) ->
  walletPath req = false ->
  forall w, lastWishcardDonation w = md_wishCardId ev ->
            deliver env req n w = (w, []).
Proof.
  intros Hp Hv Hw. induction n as [|n IH]; intros w Hs; [reflexivity|].
  cbn [deliver]. rewrite (card_duplicate_idle req w ev Hp Hv Hw Hs).
  cbn [final emitted]. now rewrite (IH w Hs).
Qed.

End Redelivery.

(** C3 as stated fails.  The wish card of a correctly signed event is
    missing: the signature verifies and the response is 400 all the same. *)
Lemma verified_event_answered_400 :
  verify Demo.env Demo.lostItemRequest
  = inr (carrying (Demo.eventOf "i404|u1|37.5|5.00|HopeAgency"))
  /\ exists r,
       value (handlePostWebhook Demo.env Demo.lostItemRequest Demo.world)
       = inr r
       /\ statusCode r = 400%Z
       /\ responseBody r
          = Text "Webhook Error: Error: [PaymentProviderController][handleDonation] WishCard i404 not found!".
Proof.
  split; [vm_compute; reflexivity|].
  exists (badRequest
            (notFound Item
               (stripeDonation (Demo.eventOf "i404|u1|37.5|5.00|HopeAgency")))).
  split; [vm_compute; reflexivity|].
  split; vm_compute; reflexivity.
Qed.

(** C3, as the code has it.  The handler always responds, and its response
    is 200 with [{received: true}] unless something throws inside the [try]
    of the card path: the signature does not verify, or the verified event
    has no metadata bag to read the item id from, or the verified event
    passes the dedup slot and its commit throws (by [handleDonation_value],
    because the item, the payer or the agency is missing).  In those cases,
    and only in those, the response is 400 with the text
    ["Webhook Error: "] followed by the error as a string. *)
Theorem webhook_response (env : Env) (req : Request) (w : World) :
  value (handlePostWebhook env req w)
  = inr match cardFailure env req w with
        | Some e => badRequest e
        | None => ok200
        end.
Proof.
  unfold cardFailure.
  destruct (cardPath req) eqn:Hp.
  - destruct (verify env req) as [e|[[ev|]]] eqn:Hv;
      [| |now rewrite (card_no_metadata env req w _ Hp Hv eq_refl)].
    + now rewrite (card_rejected env req w e Hp Hv).
    + cbn [metadata]. change {| metadata := Some ev |} with (carrying ev) in Hv.
      destruct (strictNeq (lastWishcardDonation w) (md_wishCardId ev)) eqn:Hs.
      * apply strictNeq_true_iff in Hs.
        rewrite (card_fresh env req w ev Hp Hv Hs). cbv zeta.
        destruct (value (handleDonation env (stripeDonation ev)
                           (remember (md_wishCardId ev) w))) as [e|[]].
        -- reflexivity.
        -- apply walletAndAck_value.
      * apply strictNeq_false_iff in Hs.
        rewrite (card_duplicate env req w ev Hp Hv Hs).
        apply walletAndAck_value.
  - rewrite (handlePostWebhook_no_card env req w Hp).
    apply walletAndAck_value.
Qed.

(** C5 as stated fails.  The wallet path never looks at the slot: with the
    slot already holding ["i9"], a wallet event for ["i9"] is committed, and
    a wallet event leaves the slot as it was. *)
Lemma wallet_event_bypasses_slot :
  let w := remember (Some "i9") Demo.world in
  let o := handlePostWebhook Demo.env Demo.walletRequest w in
  paypalDonation Demo.walletRequest = inr Demo.walletDonation
  /\ lastWishcardDonation w = wishCardId Demo.walletDonation
  /\ donationRecords (emitted o) = 1
  /\ statusUpdates (emitted o) = 1
  /\ lastWishcardDonation
       (final (handlePostWebhook Demo.env Demo.walletRequest Demo.world))
     = Some "".
Proof. vm_compute. repeat split. Qed.

(** C5, as the code has it.  For a verified card event the slot is
    compared with the event's item id right before the commit.  If they are
    equal nothing is done.  If they differ, the commit runs from the world in
    which the slot already holds the item id, and the request does what that
    commit does, followed only by the error log entry when the commit
    throws.  Either way the slot holds the item id afterwards. *)
Theorem card_event_passes_slot_before_commit (env : Env) (req : Request)
  (w : World) (ev : StripeEvent) :
  cardPath req = true ->
  verify env req = inr (carrying ev) ->
  walletPath req = false ->
  let o := handlePostWebhook env req w in
  let id := md_wishCardId ev in
  let c := handleDonation env (stripeDonation ev) (remember id w) in
  wishCardId (stripeDonation ev) = id
  /\ (lastWishcardDonation w = id -> o = mkOutcome (inr ok200) w [])
  /\ (lastWishcardDonation w <> id ->
      lastWishcardDonation (remember id w) = id
      /\ final o = final c
      /\ emitted o
         = emitted c
           ++ match value c with
              | inl e => [LogError "Webhook Error:" e]
              | inr _ => []
              end)
  /\ lastWishcardDonation (final o) = id.
Proof.
  intros Hp Hv Hw o id c. subst o id c.
  split; [reflexivity|]. split; [|split].
  - intro Hs. apply (card_duplicate_idle env req w ev Hp Hv Hw Hs).
  - intro Hs. split; [reflexivity|].
    rewrite (card_fresh env req w ev Hp Hv Hs). cbv zeta.
    destruct (value (handleDonation env (stripeDonation ev)
                       (remember (md_wishCardId ev) w))) as [e|[]].
    + split; reflexivity.
    + rewrite (walletAndAck_idle env req _ Hw). split; reflexivity.
  - apply (card_slot_after env req w ev Hp Hv Hw).
Qed.

Lemma card_event_passes_slot_before_commit_witness :
  cardPath Demo.cardRequest = true
  /\ verify Demo.env Demo.cardRequest
     = inr (carrying (Demo.eventOf "i9|u1|37.5|5.00|HopeAgency"))
  /\ walletPath Demo.cardRequest = false
  /\ lastWishcardDonation
       (final (handlePostWebhook Demo.env Demo.cardRequest Demo.world))
     = Some "i9".
Proof.
  split; [reflexivity|]. split; [vm_compute; reflexivity|].
  split; [reflexivity|].
  pose proof (card_event_passes_slot_before_commit Demo.env Demo.cardRequest
                Demo.world (Demo.eventOf "i9|u1|37.5|5.00|HopeAgency")
                eq_refl eq_refl eq_refl) as H.
  cbv zeta in H. destruct H as (_ & _ & _ & H). exact H.
Defined.

(** C1 as stated fails.  A wallet event delivered twice in a row is
    committed twice: two item-status updates and two donation records. *)
Lemma wallet_redelivery_commits_twice :
  paypalDonation Demo.walletRequest = inr Demo.walletDonation
  /\ statusUpdates (snd (deliver Demo.env Demo.walletRequest 2 Demo.world)) = 2
  /\ donationRecords (snd (deliver Demo.env Demo.walletRequest 2 Demo.world)) = 2
  /\ length (donations (db (fst (deliver Demo.env Demo.walletRequest 2
                                   Demo.world)))) = 2.
Proof. vm_compute. repeat split. Qed.

(** C1, as the code has it.  A verified card event delivered twice in a
    row: the second delivery does nothing and is acknowledged; and when the
    slot did not already hold the item id and payer, item and agency
    resolve, the two deliveries together make exactly one donation record
    and one item-status update. *)
Theorem card_redelivery_commits_once (env : Env) (req : Request) (w : World)
  (ev : StripeEvent) :
  cardPath req = true ->
  verify env req = inr (carrying ev) ->
  walletPath req = false ->
  let o1 := handlePostWebhook env req w in
  let o2 := handlePostWebhook env req (final o1) in
  o2 = mkOutcome (inr ok200) (final o1) []
  /\ (lastWishcardDonation w <> md_wishCardId ev ->
      firstMissing (stripeDonation ev) (db w) = None ->
      value o1 = inr ok200
      /\ donationRecords (emitted o1 ++ emitted o2) = 1
      /\ statusUpdates (emitted o1 ++ emitted o2) = 1
      /\ length (donations (db (final o2))) = S (length (donations (db w)))).
Proof.
  intros Hp Hv Hw o1 o2. subst o1 o2.
  pose proof (card_slot_after env req w ev Hp Hv Hw) as Hslot.
  rewrite (card_duplicate_idle env req _ ev Hp Hv Hw Hslot).
  split; [reflexivity|]. intros Hs Hm.
  cbn [final emitted]. rewrite app_nil_r.
  rewrite (card_fresh env req w ev Hp Hv Hs). cbv zeta.
  unfold firstMissing in Hm. cbn [stripeDonation wishCardId userId agencyName] in Hm.
  destruct (lookupWishCard (md_wishCardId ev) (db w)) as [c|] eqn:Hc;
    [|discriminate].
  destruct (lookupUser (md_userId ev) (db w)) as [u|] eqn:Hu; [|discriminate].
  destruct (lookupAgency (md_agencyName ev) (db w)) as [g|] eqn:Hg;
    [|discriminate].
  rewrite (handleDonation_committed env (stripeDonation ev)
             (remember (md_wishCardId ev) w) c u g Hc Hu Hg).
  cbn [value final emitted]. rewrite (walletAndAck_idle env req _ Hw).
  cbn [value final emitted]. rewrite app_nil_r.
  destruct (fanOut_counts env (stripeDonation ev) u c g) as [Hfs Hfd].
  rewrite donationRecords_app, statusUpdates_app, Hfs, Hfd.
  repeat split.
  cbn. rewrite length_app. cbn. lia.
Qed.

Lemma card_redelivery_commits_once_witness :
  cardPath Demo.cardRequest = true
  /\ walletPath Demo.cardRequest = false
  /\ lastWishcardDonation Demo.world <> Some "i9"
  /\ donationRecords (snd (deliver Demo.env Demo.cardRequest 2 Demo.world)) = 1
  /\ statusUpdates (snd (deliver Demo.env Demo.cardRequest 2 Demo.world)) = 1.
Proof.
  split; [reflexivity|]. split; [reflexivity|].
  split; [discriminate|].
  destruct (card_redelivery_commits_once Demo.env Demo.cardRequest Demo.world
              (Demo.eventOf "i9|u1|37.5|5.00|HopeAgency")
              eq_refl eq_refl eq_refl) as [_ H].
  destruct (H ltac:(discriminate) eq_refl) as (_ & Hd & Hs & _).
  cbn [deliver]. cbn [snd]. rewrite app_nil_r.
  split; assumption.
Defined.

(** C10.  On the card path the slot takes the event's item id before the
    commit runs and keeps it when the commit throws.  So after a failed
    commit for an item the request has been answered 400, no donation
    record has been made, and every later delivery of the same verified
    event that finds the slot unchanged does nothing, whatever the database
    holds by then: redelivery never creates the donation record. *)
Theorem failed_commit_blocks_redelivery (env : Env) (req : Request)
  (w : World) (ev : StripeEvent) (e : Error) :
  cardPath req = true ->
  verify env req = inr (carrying ev) ->
  walletPath req = false ->
  lastWishcardDonation w <> md_wishCardId ev ->
  value (handleDonation env (stripeDonation ev)
           (remember (md_wishCardId ev) w)) = inl e ->
  let o := handlePostWebhook env req w in
  value o = inr (badRequest e)
  /\ lastWishcardDonation (final o) = md_wishCardId ev
  /\ donationRecords (emitted o) = 0
  /\ donations (db (final o)) = donations (db w)
  /\ (forall w', lastWishcardDonation w' = md_wishCardId ev ->
                 handlePostWebhook env req w' = mkOutcome (inr ok200) w' [])
  /\ (forall n, deliver env req n (final o) = (final o, [])).
Proof.
  intros Hp Hv Hw Hs He o. subst o.
  pose proof (card_slot_after env req w ev Hp Hv Hw) as Hslot.
  pose proof (handleDonation_failed env _ _ e He) as [Hd Hdb].
  split; [|split; [exact Hslot|split; [|split; [|split]]]].
  - rewrite (card_fresh env req w ev Hp Hv Hs). cbv zeta. now rewrite He.
  - rewrite (card_fresh env req w ev Hp Hv Hs). cbv zeta. rewrite He.
    cbn [emitted]. rewrite donationRecords_app, Hd. reflexivity.
  - rewrite (card_fresh env req w ev Hp Hv Hs). cbv zeta. rewrite He.
    cbn [final]. exact Hdb.
  - intros w' Hs'. apply (card_duplicate_idle env req w' ev Hp Hv Hw Hs').
  - intro n. apply (deliver_duplicates env req ev n Hp Hv Hw _ Hslot).
Qed.

Lemma failed_commit_blocks_redelivery_witness :
  value (handlePostWebhook Demo.env Demo.lostPayerRequest Demo.world)
  = inr (badRequest
           (notFound Payer
              (stripeDonation (Demo.eventOf "i9|u404|37.5|5.00|HopeAgency"))))
  /\ deliver Demo.env Demo.lostPayerRequest 3
       (final (handlePostWebhook Demo.env Demo.lostPayerRequest Demo.world))
     = (final (handlePostWebhook Demo.env Demo.lostPayerRequest Demo.world), []).
Proof.
  assert (Hv : verify Demo.env Demo.lostPayerRequest
               = inr (carrying (Demo.eventOf "i9|u404|37.5|5.00|HopeAgency")))
    by (vm_compute; reflexivity).
  assert (Hs : lastWishcardDonation Demo.world
               <> md_wishCardId (Demo.eventOf "i9|u404|37.5|5.00|HopeAgency"))
    by (vm_compute; discriminate).
  assert (He : value (handleDonation Demo.env
                        (stripeDonation
                           (Demo.eventOf "i9|u404|37.5|5.00|HopeAgency"))
                        (remember
                           (md_wishCardId
                              (Demo.eventOf "i9|u404|37.5|5.00|HopeAgency"))
                           Demo.world))
               = inl (notFound Payer
                        (stripeDonation
                           (Demo.eventOf "i9|u404|37.5|5.00|HopeAgency"))))
    by (vm_compute; reflexivity).
  destruct (failed_commit_blocks_redelivery Demo.env Demo.lostPayerRequest
              Demo.world _ _ eq_refl Hv eq_refl Hs He)
    as (H1 & _ & _ & _ & _ & Hn).
  split; [exact H1 | exact (Hn 3)].
Defined.

(** * The wallet provider's composite reference *)

Lemma split_whole (s : string) :
  percentFree s = true -> split "%" s = [s].
Proof.
  unfold percentFree. induction s as [|c s IH]; [reflexivity|].
  cbn [list_ascii_of_string forallb split]. intro H.
  apply andb_true_iff in H as [Hc Hs].
  apply negb_true_iff in Hc. rewrite Hc, (IH Hs). reflexivity.
Qed.

Lemma split_piece (s rest : string) :
  percentFree s = true ->
  split "%" (s ++ String "%" rest) = s :: split "%" rest.
Proof.
  unfold percentFree. induction s as [|c s IH].
  - intros _. reflexivity.
  - cbn [list_ascii_of_string forallb]. intro H.
    apply andb_true_iff in H as [Hc Hs]. apply negb_true_iff in Hc.
    change (String c s ++ String "%" rest)%string
      with (String c (s ++ String "%" rest))%string.
    cbn [split]. rewrite Hc, (IH Hs). reflexivity.
Qed.

(** C8.  The reference string [payer%item%supplemental%agency] of the first
    purchase unit is decoded by position, and the amount of the commit is the
    purchase unit's own [amount.value], whatever supplemental value the
    string carries; a verified wallet event is committed with exactly these
    arguments.  For ["u1%i9%5.00%HopeAgency"] with amount ["37.50"]: payer
    ["u1"], item ["i9"], supplemental ["5.00"], agency ["HopeAgency"],
    amount ["37.50"]. *)
Theorem wallet_reference_decoded (env : Env) (req : Request) (w : World)
  (purchase : PurchaseUnit) (others : list PurchaseUnit)
  (payer item supplemental agency : string) :
  purchase_units (body req) = purchase :: others ->
  reference_id purchase
  = (payer ++ "%" ++ item ++ "%" ++ supplemental ++ "%" ++ agency)%string ->
  percentFree payer = true ->
  percentFree item = true ->
  percentFree supplemental = true ->
  percentFree agency = true ->
  let a := {| service := "Paypal";
              userId := Some payer;
              wishCardId := Some item;
              amount := Some (amount_value purchase);
              userDonation := Some supplemental;
              agencyName := Some agency |} in
  paypalDonation req = inr a
  /\ (cardPath req = false ->
      walletPath req = true ->
      getAndVerify env (rawBody req) = None ->
      handlePostWebhook env req w
      = mkOutcome (inr ok200) (final (handleDonation env a w))
          (emitted (handleDonation env a w))).
Proof.
  intros Hu Hr Hp Hi Hs Hg a.
  assert (Ha : paypalDonation req = inr a).
  { unfold paypalDonation. rewrite Hu, Hr.
    change (payer ++ "%" ++ item ++ "%" ++ supplemental ++ "%" ++ agency)%string
      with (payer ++ String "%" (item ++ String "%"
              (supplemental ++ String "%" agency)))%string.
    rewrite (split_piece payer _ Hp), (split_piece item _ Hi),
      (split_piece supplemental _ Hs), (split_whole agency Hg).
    reflexivity. }
  split; [exact Ha|].
  intros Hc Hw Hv.
  rewrite (handlePostWebhook_no_card env req w Hc).
  apply (wallet_verified env req w a Hw Hv Ha).
Qed.

Lemma wallet_reference_decoded_witness :
  reference_id
    {| reference_id := "u1%i9%5.00%HopeAgency"; amount_value := "37.50" |}
  = ("u1" ++ "%" ++ "i9" ++ "%" ++ "5.00" ++ "%" ++ "HopeAgency")%string
  /\ paypalDonation Demo.walletRequest
     = inr {| service := "Paypal";
              userId := Some "u1";
              wishCardId := Some "i9";
              amount := Some "37.50";
              userDonation := Some "5.00";
              agencyName := Some "HopeAgency" |}.
Proof.
  split; [reflexivity|].
  exact (proj1 (wallet_reference_decoded Demo.env Demo.walletRequest Demo.world
                  {| reference_id := "u1%i9%5.00%HopeAgency";
                     amount_value := "37.50" |} []
                  "u1" "i9" "5.00" "HopeAgency"
                  eq_refl eq_refl eq_refl eq_refl eq_refl eq_refl)).
Defined.

(** * Creating a payment intent: the charged amount *)

Section CreateIntent.

Variable env : Env.

(** Line 173: without the wish card nothing is asked of the provider. *)
Lemma createIntent_missing (req : IntentRequest) (w : World) :
  lookupWishCard (ir_wishCardId req) (db w) = None ->
  handlePostCreateIntent env req w
  = mkOutcome (inr (handleError env "Wishcard not found")) w [].
Proof.
  intro H. unfold handlePostCreateIntent, bind, getWishCardByObjectId.
  cbn [value final emitted]. rewrite H. reflexivity.
Qed.

Lemma createIntent_found (req : IntentRequest) (w : World) (c : WishCard) :
  lookupWishCard (ir_wishCardId req) (db w) = Some c ->
  handlePostCreateIntent env req w
  = mkOutcome
      match paymentIntents_create env (intentParams env req c) with
      | inl e => inl e
      | inr secret =>
          inr {| statusCode := 200; responseBody := ClientSecret secret |}
      end
      w [CreatePaymentIntent (intentParams env req c)].
Proof.
  intro H. unfold handlePostCreateIntent, bind, getWishCardByObjectId.
  cbn [value final emitted]. rewrite H. cbv zeta.
  fold (intentParams env req c). unfold createPaymentIntent.
  cbn [value final emitted app].
  destruct (paymentIntents_create env (intentParams env req c));
    reflexivity.
Qed.

End CreateIntent.

(** The spec's scenario: an item totalling 32.50 with supplemental 5.00 is
    charged 3750 minor units, as the decimal amounts give it. *)
Example createIntent_3750 (env : Env) (req : IntentRequest) (c : WishCard) :
  calculateWishItemTotalPrice env (wishItemPrice c) = "32.50" ->
  ir_userDonation req = Some "5.00" ->
  ip_amount (intentParams env req c) = 3750%float
  /\ minorUnits_spec "32.50" (Some "5.00") = Some 3750%Z.
Proof.
  intros Ht Hs. unfold intentParams, totalItemPrice. rewrite Ht, Hs.
  split; vm_compute; reflexivity.
Qed.

(** The same cut without any supplemental amount: an item totalling 19.99
    is charged 1998 minor units. *)
Example createIntent_1998 (env : Env) (req : IntentRequest) (c : WishCard) :
  calculateWishItemTotalPrice env (wishItemPrice c) = "19.99" ->
  ir_userDonation req = None ->
  ip_amount (intentParams env req c) = 1998%float
  /\ minorUnits_spec "19.99" None = Some 1999%Z.
Proof.
  intros Ht Hs. unfold intentParams, totalItemPrice. rewrite Ht, Hs.
  split; vm_compute; reflexivity.
Qed.

(** C9 at an item totalling 32.50 with supplemental 0.30: the decimal
    amounts give 3280 minor units; the code asks the provider for 3279,
    because the double nearest to 32.8 times 100 is 3279.9999999999995 and
    [Math.floor] cuts it down.  The client secret is still the response. *)
Theorem createIntent_charges_a_cent_less (env : Env) (req : IntentRequest)
  (w : World) (c : WishCard) (secret : string) :
  lookupWishCard (ir_wishCardId req) (db w) = Some c ->
  calculateWishItemTotalPrice env (wishItemPrice c) = "32.50" ->
  ir_userDonation req = Some "0.30" ->
  paymentIntents_create env (intentParams env req c) = inr secret ->
  let o := handlePostCreateIntent env req w in
  value o = inr {| statusCode := 200; responseBody := ClientSecret secret |}
  /\ emitted o = [CreatePaymentIntent (intentParams env req c)]
  /\ ip_amount (intentParams env req c) = 3279%float
  /\ minorUnits_spec "32.50" (Some "0.30") = Some 3280%Z.
Proof.
  intros Hc Ht Hs Hp o. subst o.
  rewrite (createIntent_found env req w c Hc), Hp.
  cbn [value emitted]. split; [reflexivity|]. split; [reflexivity|].
  unfold intentParams, totalItemPrice. rewrite Ht, Hs.
  split; vm_compute; reflexivity.
Qed.

Lemma createIntent_charges_a_cent_less_witness :
  ip_amount (intentParams Demo.env (Demo.intentRequest (Some "0.30")) Demo.bicycle)
  = 3279%float
  /\ minorUnits_spec "32.50" (Some "0.30") = Some 3280%Z.
Proof.
  destruct (createIntent_charges_a_cent_less Demo.env
              (Demo.intentRequest (Some "0.30")) Demo.world Demo.bicycle
              "pi_3N_secret_x7" eq_refl eq_refl eq_refl eq_refl)
    as (_ & _ & Ha & Hm).
  split; assumption.
Defined.

(** * Further properties of the controller *)

(** ** What a run may change in the database *)

Lemma sameOrDonated_refl (c : WishCard) : sameOrDonated c c.
Proof. now left. Qed.

Lemma sameOrDonated_trans (c1 c2 c3 : WishCard) :
  sameOrDonated c1 c2 -> sameOrDonated c2 c3 -> sameOrDonated c1 c3.
Proof.
  intros [->| ->] [->| ->]; unfold sameOrDonated; auto.
Qed.

Lemma sameOrDonated_id (c c' : WishCard) :
  sameOrDonated c c' -> wishCard_id c' = wishCard_id c.
Proof. now intros [->| ->]. Qed.

Lemma Forall2_sameOrDonated_refl (l : list WishCard) :
  Forall2 sameOrDonated l l.
Proof. induction l; constructor; auto using sameOrDonated_refl. Qed.

Lemma Forall2_sameOrDonated_trans (l1 l2 l3 : list WishCard) :
  Forall2 sameOrDonated l1 l2 -> Forall2 sameOrDonated l2 l3 ->
  Forall2 sameOrDonated l1 l3.
Proof.
  intro H. revert l3. induction H as [|c1 c2 l1 l2 Hc _ IH]; intros l3 H23.
  - inversion H23. constructor.
  - inversion H23 as [|? c3 ? l3' Hc' H' ]; subst. constructor.
    + eapply sameOrDonated_trans; eauto.
    + apply IH, H'.
Qed.

Lemma updateStatusIn_cards (id : string) (d : Db) :
  Forall2 sameOrDonated (wishCards d)
    (wishCards (updateStatusIn id "donated" d)).
Proof.
  unfold updateStatusIn. cbn [wishCards].
  induction (wishCards d) as [|c l IH]; cbn [map]; constructor; [|exact IH].
  destruct (wishCard_id c =? id); [now right | now left].
Qed.

Lemma onlyCommits_refl (d : Db) : onlyCommits d d.
Proof.
  repeat split; [exists []; now rewrite app_nil_r
                | apply Forall2_sameOrDonated_refl].
Qed.

Lemma onlyCommits_trans (d1 d2 d3 : Db) :
  onlyCommits d1 d2 -> onlyCommits d2 d3 -> onlyCommits d1 d3.
Proof.
  intros (Hu & Hg & [x Hx] & Hc) (Hu' & Hg' & [y Hy] & Hc').
  repeat split; try congruence.
  - exists (x ++ y). now rewrite Hy, Hx, app_assoc.
  - eapply Forall2_sameOrDonated_trans; eauto.
Qed.

Lemma onlyCommits_marked (id : string) (d : Db) :
  onlyCommits d (updateStatusIn id "donated" d).
Proof.
  repeat split; [exists []; cbn; now rewrite app_nil_r
                | apply updateStatusIn_cards].
Qed.

Lemma onlyCommits_recorded (r : Donation) (d : Db) :
  onlyCommits d (insertDonation r d).
Proof.
  repeat split; [now exists [r] | apply Forall2_sameOrDonated_refl].
Qed.

Section Frame.

Variable env : Env.

Lemma handleDonation_onlyCommits (a : DonationArgs) (w : World) :
  onlyCommits (db w) (db (final (handleDonation env a w))).
Proof.
  destruct (lookupWishCard (wishCardId a) (db w)) as [c|] eqn:Hc.
  - destruct (lookupUser (userId a) (db w)) as [u|] eqn:Hu.
    + destruct (lookupAgency (agencyName a) (db w)) as [g|] eqn:Hg.
      * rewrite (handleDonation_committed env a w c u g Hc Hu Hg).
        cbn [final recorded marked db].
        eapply onlyCommits_trans;
          [apply onlyCommits_marked | apply onlyCommits_recorded].
      * rewrite (handleDonation_no_agency env a w c u Hc Hu Hg).
        apply onlyCommits_marked.
    + rewrite (handleDonation_no_payer env a w c Hc Hu).
      apply onlyCommits_marked.
  - rewrite (handleDonation_no_item env a w Hc). apply onlyCommits_refl.
Qed.

Lemma paypalCallback_onlyCommits (req : Request) (error : option Error)
  (w : World) :
  onlyCommits (db w) (db (final (paypalCallback env req error w))).
Proof.
  unfold paypalCallback. destruct error as [e|].
  - apply onlyCommits_refl.
  - unfold bind, call. cbn [value final emitted].
    destruct (paypalDonation req) as [e|a]; cbn [final].
    + apply onlyCommits_refl.
    + apply handleDonation_onlyCommits.
Qed.

Lemma walletAndAck_onlyCommits (req : Request) (w : World) :
  onlyCommits (db w) (db (final (walletAndAck env req w))).
Proof.
  unfold walletAndAck. destruct (walletPath req); cbn [final].
  - apply paypalCallback_onlyCommits.
  - apply onlyCommits_refl.
Qed.

Lemma handlePostWebhook_onlyCommits (req : Request) (w : World) :
  onlyCommits (db w) (db (final (handlePostWebhook env req w))).
Proof.
  destruct (cardPath req) eqn:Hp.
  - destruct (verify env req) as [e|[[ev|]]] eqn:Hv;
      [| |rewrite (card_no_metadata env req w _ Hp Hv eq_refl);
          apply onlyCommits_refl].
    + rewrite (card_rejected env req w e Hp Hv). apply onlyCommits_refl.
    + change {| metadata := Some ev |} with (carrying ev) in Hv.
      destruct (strictNeq (lastWishcardDonation w) (md_wishCardId ev)) eqn:Hs.
      * apply strictNeq_true_iff in Hs.
        rewrite (card_fresh env req w ev Hp Hv Hs). cbv zeta.
        pose proof (handleDonation_onlyCommits (stripeDonation ev)
                      (remember (md_wishCardId ev) w)) as Hc.
        cbn [remember db] in Hc.
        destruct (value (handleDonation env (stripeDonation ev)
                           (remember (md_wishCardId ev) w))) as [e|[]];
          cbn [final]; [exact Hc|].
        eapply onlyCommits_trans; [exact Hc|apply walletAndAck_onlyCommits].
      * apply strictNeq_false_iff in Hs.
        rewrite (card_duplicate env req w ev Hp Hv Hs).
        apply walletAndAck_onlyCommits.
  - rewrite (handlePostWebhook_no_card env req w Hp).
    apply walletAndAck_onlyCommits.
Qed.

End Frame.

(** X1.  Whatever webhook requests arrive, in whatever order and from either
    provider, verified or not: users and agencies are never changed, no
    donation record is ever removed or altered, and the wish cards stay the
    same cards in the same order, each one either untouched or marked
    donated with every other field as it was. *)
Theorem webhooks_only_commit (env : Env) (reqs : list Request) (w : World) :
  onlyCommits (db w) (db (fst (handleAll env reqs w))).
Proof.
  revert w. induction reqs as [|req reqs IH]; intro w.
  - apply onlyCommits_refl.
  - cbn [handleAll].
    pose proof (IH (final (handlePostWebhook env req w))) as H.
    destruct (handleAll env reqs (final (handlePostWebhook env req w)))
      as [w' t]. cbn [fst] in *.
    eapply onlyCommits_trans; [apply handlePostWebhook_onlyCommits | exact H].
Qed.

(** ** Resolution survives commits *)

Lemma find_card_persists (l l' : list WishCard) (i : string) :
  Forall2 sameOrDonated l l' ->
  match find (fun c => wishCard_id c =? i) l,
        find (fun c => wishCard_id c =? i) l' with
  | Some c, Some c' => sameOrDonated c c'
  | None, None => True
  | _, _ => False
  end.
Proof.
  induction 1 as [|c c' l l' Hc _ IH]; cbn [find]; [exact I|].
  rewrite (sameOrDonated_id c c' Hc).
  destruct (wishCard_id c =? i); [exact Hc | exact IH].
Qed.

Lemma firstMissing_persists (a : DonationArgs) (d d' : Db) :
  onlyCommits d d' -> firstMissing a d' = firstMissing a d.
Proof.
  intros (Hu & Hg & _ & Hc). unfold firstMissing, lookupUser, lookupAgency.
  rewrite Hu, Hg.
  assert (Hw : match lookupWishCard (wishCardId a) d,
                     lookupWishCard (wishCardId a) d' with
               | Some _, Some _ | None, None => True
               | _, _ => False
               end).
  { unfold lookupWishCard. destruct (wishCardId a) as [i|]; [|exact I].
    pose proof (find_card_persists _ _ i Hc) as H.
    destruct (find _ (wishCards d)), (find _ (wishCards d')); auto. }
  destruct (lookupWishCard (wishCardId a) d),
    (lookupWishCard (wishCardId a) d'); tauto.
Qed.

Lemma lookupWishCard_id (id : JsString) (d : Db) (c : WishCard) :
  lookupWishCard id d = Some c -> id = Some (wishCard_id c).
Proof.
  unfold lookupWishCard. destruct id as [i|]; [|discriminate].
  intro H. apply find_some in H as [_ H].
  apply String.eqb_eq in H. now rewrite H.
Qed.

Lemma lookup_marked (i s : string) (d : Db) (c : WishCard) :
  lookupWishCard (Some i) d = Some c ->
  lookupWishCard (Some i) (updateStatusIn i s d) = Some (setStatus s c).
Proof.
  unfold lookupWishCard, updateStatusIn. cbn [wishCards].
  induction (wishCards d) as [|x l IH]; cbn [find map]; [discriminate|].
  destruct (wishCard_id x =? i) eqn:E.
  - intro H. injection H as <-. cbn [setStatus wishCard_id]. now rewrite E.
  - rewrite E. exact IH.
Qed.

Lemma lookup_other_marked (i j s : string) (d : Db) :
  j <> i ->
  lookupWishCard (Some j) (updateStatusIn i s d) = lookupWishCard (Some j) d.
Proof.
  intro Hj. unfold lookupWishCard, updateStatusIn. cbn [wishCards].
  induction (wishCards d) as [|x l IH]; cbn [find map]; [reflexivity|].
  destruct (wishCard_id x =? i) eqn:E.
  - apply String.eqb_eq in E. cbn [setStatus wishCard_id].
    assert (Hx : (wishCard_id x =? j) = false)
      by (apply String.eqb_neq; congruence).
    rewrite Hx. exact IH.
  - destruct (wishCard_id x =? j); [reflexivity | exact IH].
Qed.

Section Resolved.

Variable env : Env.

Lemma handleDonation_resolved (a : DonationArgs) (w : World) :
  firstMissing a (db w) = None ->
  exists c u g,
    lookupWishCard (wishCardId a) (db w) = Some c
    /\ lookupUser (userId a) (db w) = Some u
    /\ lookupAgency (agencyName a) (db w) = Some g
    /\ handleDonation env a w
       = mkOutcome (inr tt) (recorded (donationOf a u c) (marked c w))
           ([UpdateWishCard (wishCard_id c) "donated";
             CreateNewDonation (donationOf a u c)]
            ++ fanOut env a u c g).
Proof.
  unfold firstMissing. intro H.
  destruct (lookupWishCard (wishCardId a) (db w)) as [c|] eqn:Hc;
    [|discriminate].
  destruct (lookupUser (userId a) (db w)) as [u|] eqn:Hu; [|discriminate].
  destruct (lookupAgency (agencyName a) (db w)) as [g|] eqn:Hg;
    [|discriminate].
  exists c, u, g. repeat split.
  apply (handleDonation_committed env a w c u g Hc Hu Hg).
Qed.

Lemma handleDonation_resolved_counts (a : DonationArgs) (w : World) :
  firstMissing a (db w) = None ->
  value (handleDonation env a w) = inr tt
  /\ donationRecords (emitted (handleDonation env a w)) = 1
  /\ statusUpdates (emitted (handleDonation env a w)) = 1
  /\ length (donations (db (final (handleDonation env a w))))
     = S (length (donations (db w))).
Proof.
  intro H. destruct (handleDonation_resolved a w H)
    as (c & u & g & _ & _ & _ & ->).
  cbn [value final emitted].
  destruct (fanOut_counts env a u c g) as [Hs Hd].
  rewrite donationRecords_app, statusUpdates_app, Hs, Hd.
  repeat split. cbn. rewrite length_app. cbn. lia.
Qed.

(** A verified card event that passes the slot and resolves is committed. *)
Lemma card_commit_counts (req : Request) (w : World) (ev : StripeEvent) :
  cardPath req = true ->
  verify env req = inr (carrying ev) ->
  walletPath req = false ->
  lastWishcardDonation w <> md_wishCardId ev ->
  firstMissing (stripeDonation ev) (db w) = None ->
  value (handlePostWebhook env req w) = inr ok200
  /\ donationRecords (emitted (handlePostWebhook env req w)) = 1
  /\ statusUpdates (emitted (handlePostWebhook env req w)) = 1.
Proof.
  intros Hp Hv Hw Hs Hm.
  rewrite (card_fresh env req w ev Hp Hv Hs). cbv zeta.
  destruct (handleDonation_resolved_counts (stripeDonation ev)
              (remember (md_wishCardId ev) w) Hm) as (Hval & Hd & Hu & _).
  rewrite Hval. rewrite (walletAndAck_idle env req _ Hw).
  cbn [value emitted]. now rewrite app_nil_r.
Qed.

End Resolved.

(** X2.  A commit that goes through leaves the item resolvable, marked donated
    and otherwise as it was, leaves every other item as it was, and appends
    as the last donation the record from the payer to the item's owner for
    the item, priced at the amount the event carried; payer and agency
    resolve as before. *)
Theorem commit_marks_item_and_appends_record (env : Env) (a : DonationArgs)
  (w : World) (c : WishCard) (u : User) (g : Agency) :
  lookupWishCard (wishCardId a) (db w) = Some c ->
  lookupUser (userId a) (db w) = Some u ->
  lookupAgency (agencyName a) (db w) = Some g ->
  let d' := db (final (handleDonation env a w)) in
  lookupWishCard (wishCardId a) d' = Some (setStatus "donated" c)
  /\ (forall j, j <> wishCard_id c ->
                lookupWishCard (Some j) d' = lookupWishCard (Some j) (db w))
  /\ donations d'
     = donations (db w)
       ++ [{| donationFrom := user_id u;
              donationTo := belongsTo_id c;
              donationCard := wishCard_id c;
              donationPrice := amount a |}]
  /\ lookupUser (userId a) d' = Some u
  /\ lookupAgency (agencyName a) d' = Some g.
Proof.
  intros Hc Hu Hg d'. subst d'.
  rewrite (handleDonation_committed env a w c u g Hc Hu Hg).
  cbn [final recorded marked db].
  pose proof (lookupWishCard_id _ _ _ Hc) as Hid.
  split; [|split; [|split; [|split]]].
  - rewrite Hid in Hc |- *.
    apply (lookup_marked _ "donated" (db w) c Hc).
  - intros j Hj. apply (lookup_other_marked _ _ "donated" (db w) Hj).
  - reflexivity.
  - exact Hu.
  - exact Hg.
Qed.

Lemma commit_marks_item_and_appends_record_witness :
  lookupWishCard (Some "i9")
    (db (final (handleDonation Demo.env Demo.walletDonation Scenario.world)))
  = Some (setStatus "donated" Demo.bicycle)
  /\ lookupWishCard (Some "i7")
       (db (final (handleDonation Demo.env Demo.walletDonation Scenario.world)))
     = Some Scenario.doll.
Proof.
  destruct (commit_marks_item_and_appends_record Demo.env Demo.walletDonation
              Scenario.world Demo.bicycle Demo.ada Demo.hope
              eq_refl eq_refl eq_refl) as (H1 & H2 & _).
  split; [exact H1|]. rewrite (H2 "i7"); [reflexivity | discriminate].
Defined.

(** ** Deliveries the slot does not stop *)

(** X3.  The wallet path has no dedup at all: a verified wallet event whose
    payer, item and agency resolve, delivered [n] times in a row, is
    committed [n] times -- [n] item-status updates and [n] donation records,
    all of them kept in the database. *)
Theorem wallet_deliveries_all_commit (env : Env) (req : Request)
  (a : DonationArgs) (n : nat) (w : World) :
  cardPath req = false ->
  walletPath req = true ->
  getAndVerify env (rawBody req) = None ->
  paypalDonation req = inr a ->
  firstMissing a (db w) = None ->
  donationRecords (snd (deliver env req n w)) = n
  /\ statusUpdates (snd (deliver env req n w)) = n
  /\ length (donations (db (fst (deliver env req n w))))
     = length (donations (db w)) + n.
Proof.
  intros Hp Hw Hv Ha. revert w.
  induction n as [|n IH]; intros w Hm.
  - cbn. repeat split. lia.
  - cbn [deliver].
    rewrite (handlePostWebhook_no_card env req w Hp).
    rewrite (wallet_verified env req w a Hw Hv Ha). cbv zeta.
    cbn [final emitted].
    destruct (handleDonation_resolved_counts env a w Hm)
      as (_ & Hd & Hs & Hl).
    assert (Hm' : firstMissing a (db (final (handleDonation env a w))) = None).
    { rewrite (firstMissing_persists a (db w)); [exact Hm|].
      apply handleDonation_onlyCommits. }
    destruct (IH _ Hm') as (IHd & IHs & IHl).
    destruct (deliver env req n (final (handleDonation env a w))) as [w' t].
    cbn [fst snd] in *.
    rewrite donationRecords_app, statusUpdates_app, Hd, Hs, IHd, IHs, IHl, Hl.
    repeat split. lia.
Qed.

Lemma wallet_deliveries_all_commit_witness :
  donationRecords (snd (deliver Demo.env Demo.walletRequest 5 Demo.world)) = 5
  /\ length (donations
               (db (fst (deliver Demo.env Demo.walletRequest 5 Demo.world))))
     = 5.
Proof.
  assert (Ha : paypalDonation Demo.walletRequest = inr Demo.walletDonation)
    by (vm_compute; reflexivity).
  destruct (wallet_deliveries_all_commit Demo.env Demo.walletRequest
              Demo.walletDonation 5 Demo.world eq_refl eq_refl eq_refl Ha
              eq_refl) as (Hd & _ & Hl).
  split; [exact Hd | exact Hl].
Defined.

(** X4.  The slot remembers one item only.  After verified card events for an
    item X and then for a different item Y, the event for X passes the slot
    again: if X resolved at the start, its redelivery is committed a second
    time (another status update, another donation record), and the first
    delivery was committed too unless the slot already held X. *)
Theorem slot_forgets_after_other_item (env : Env) (reqX reqY : Request)
  (evX evY : StripeEvent) (w : World) :
  cardPath reqX = true -> verify env reqX = inr (carrying evX) -> walletPath reqX = false ->
  cardPath reqY = true -> verify env reqY = inr (carrying evY) -> walletPath reqY = false ->
  md_wishCardId evX <> md_wishCardId evY ->
  firstMissing (stripeDonation evX) (db w) = None ->
  let o1 := handlePostWebhook env reqX w in
  let o2 := handlePostWebhook env reqY (final o1) in
  let o3 := handlePostWebhook env reqX (final o2) in
  value o3 = inr ok200
  /\ donationRecords (emitted o3) = 1
  /\ statusUpdates (emitted o3) = 1
  /\ (lastWishcardDonation w <> md_wishCardId evX ->
      donationRecords (emitted o1 ++ emitted o2 ++ emitted o3) >= 2).
Proof.
  intros HpX HvX HwX HpY HvY HwY Hxy Hm o1 o2 o3. subst o1 o2 o3.
  set (w1 := final (handlePostWebhook env reqX w)).
  set (w2 := final (handlePostWebhook env reqY w1)).
  assert (Hslot : lastWishcardDonation w2 <> md_wishCardId evX).
  { unfold w2. rewrite (card_slot_after env reqY w1 evY HpY HvY HwY).
    congruence. }
  assert (Hm2 : firstMissing (stripeDonation evX) (db w2) = None).
  { rewrite (firstMissing_persists _ (db w)); [exact Hm|].
    eapply onlyCommits_trans; apply handlePostWebhook_onlyCommits. }
  destruct (card_commit_counts env reqX w2 evX HpX HvX HwX Hslot Hm2)
    as (Hv3 & Hd3 & Hs3).
  repeat split; try assumption.
  intro Hs. destruct (card_commit_counts env reqX w evX HpX HvX HwX Hs Hm)
    as (_ & Hd1 & _).
  rewrite !donationRecords_app, Hd1, Hd3. lia.
Qed.

Lemma slot_forgets_after_other_item_witness :
  donationRecords
    (snd (handleAll Demo.env
            [Demo.cardRequest; Scenario.dollRequest; Demo.cardRequest]
            Scenario.world)) >= 2.
Proof.
  assert (HvX : verify Demo.env Demo.cardRequest
                = inr (carrying (Demo.eventOf "i9|u1|37.5|5.00|HopeAgency")))
    by (vm_compute; reflexivity).
  assert (HvY : verify Demo.env Scenario.dollRequest
                = inr (carrying (Demo.eventOf "i7|u1|14.5|0|HopeAgency")))
    by (vm_compute; reflexivity).
  assert (Hxy : md_wishCardId (Demo.eventOf "i9|u1|37.5|5.00|HopeAgency")
                <> md_wishCardId (Demo.eventOf "i7|u1|14.5|0|HopeAgency"))
    by (vm_compute; discriminate).
  assert (Hm : firstMissing
                 (stripeDonation (Demo.eventOf "i9|u1|37.5|5.00|HopeAgency"))
                 (db Scenario.world) = None)
    by (vm_compute; reflexivity).
  assert (Hs : lastWishcardDonation Scenario.world
               <> md_wishCardId (Demo.eventOf "i9|u1|37.5|5.00|HopeAgency"))
    by (vm_compute; discriminate).
  destruct (slot_forgets_after_other_item Demo.env Demo.cardRequest
              Scenario.dollRequest _ _ Scenario.world
              eq_refl HvX eq_refl eq_refl HvY eq_refl Hxy Hm)
    as (_ & _ & _ & H).
  specialize (H Hs). cbn [handleAll snd]. rewrite app_nil_r. exact H.
Defined.

(** ** Requests that are not a donation *)

(** X5.  A request with no signature header, or an empty one, whose body does
    not declare the wallet's order-approved event type is acknowledged with
    200 and [{received: true}] and nothing else happens: no effect, and the
    database and the slot are as before. *)
Theorem unrecognised_request_is_a_no_op (env : Env) (req : Request)
  (w : World) :
  truthy (stripe_signature req) = false ->
  event_type (body req) <> Some "CHECKOUT.ORDER.APPROVED" ->
  handlePostWebhook env req w = mkOutcome (inr ok200) w [].
Proof.
  intros Hs Ht.
  rewrite (handlePostWebhook_no_card env req w Hs).
  apply walletAndAck_idle. unfold walletPath.
  apply strictNeq_true_iff in Ht. now rewrite Ht.
Qed.

Lemma unrecognised_request_is_a_no_op_witness :
  handlePostWebhook Demo.env Scenario.strangerRequest Demo.world
  = mkOutcome (inr ok200) Demo.world [].
Proof.
  apply (unrecognised_request_is_a_no_op Demo.env Scenario.strangerRequest
           Demo.world eq_refl).
  discriminate.
Defined.

(** X6.  A verified card event whose metadata has no [wishCardId] -- any event
    of the card processor that is not about a donation -- is not ignored.
    If the slot holds an item id, the event passes the slot, erases it, its
    commit fails on the item lookup without mutating anything, and the
    sender is answered 400; so the item the slot held will pass the slot
    again.  Only when the slot is already erased is the event skipped with
    200. *)
Theorem event_without_item_id_erases_slot (env : Env) (req : Request)
  (w : World) (ev : StripeEvent) :
  cardPath req = true ->
  verify env req = inr (carrying ev) ->
  walletPath req = false ->
  md_wishCardId ev = None ->
  let missing := notFound Item (stripeDonation ev) in
  message missing
  = "[PaymentProviderController][handleDonation] WishCard undefined not found!"
  /\ (lastWishcardDonation w <> None ->
      handlePostWebhook env req w
      = mkOutcome (inr (badRequest missing))
          (remember None w) [LogError "Webhook Error:" missing])
  /\ (lastWishcardDonation w = None ->
      handlePostWebhook env req w = mkOutcome (inr ok200) w []).
Proof.
  intros Hp Hv Hw Hid missing. subst missing.
  split; [cbn; now rewrite Hid|]. split.
  - intro Hs. rewrite <- Hid in Hs.
    rewrite (card_fresh env req w ev Hp Hv Hs). cbv zeta.
    rewrite handleDonation_no_item;
      [|cbn [stripeDonation wishCardId]; now rewrite Hid].
    cbn [value final emitted app]. now rewrite Hid.
  - intro Hs. rewrite <- Hid in Hs.
    apply (card_duplicate_idle env req w ev Hp Hv Hw Hs).
Qed.

Lemma event_without_item_id_erases_slot_witness :
  let w := remember (Some "i9") Demo.world in
  let o := handlePostWebhook Scenario.env Scenario.pingRequest w in
  statusCode match value o with inr r => r | inl _ => ok200 end = 400%Z
  /\ lastWishcardDonation (final o) = None.
Proof.
  assert (Hv : verify Scenario.env Scenario.pingRequest
               = inr (carrying Scenario.bareEvent)) by (vm_compute; reflexivity).
  destruct (event_without_item_id_erases_slot Scenario.env
              Scenario.pingRequest (remember (Some "i9") Demo.world)
              Scenario.bareEvent eq_refl Hv eq_refl eq_refl)
    as (_ & H & _).
  cbv zeta. rewrite (H ltac:(discriminate)). split; reflexivity.
Defined.

(** ** The wallet path when the event is rejected or malformed *)

(** X7.  When the wallet provider's verification reports an error, the error is
    logged at info level and thrown inside the callback: no commit is
    attempted, nothing is mutated, and the sender still gets 200 with
    [{received: true}]. *)
Theorem wallet_verification_failure_is_acknowledged (env : Env)
  (req : Request) (w : World) (e : Error) :
  truthy (stripe_signature req) = false ->
  event_type (body req) = Some "CHECKOUT.ORDER.APPROVED" ->
  getAndVerify env (rawBody req) = Some e ->
  handlePostWebhook env req w = mkOutcome (inr ok200) w [LogInfoError e].
Proof.
  intros Hs Ht Hv.
  rewrite (handlePostWebhook_no_card env req w Hs).
  unfold walletAndAck, walletPath, paypalCallback.
  rewrite Ht, Hv. reflexivity.
Qed.

Lemma wallet_verification_failure_is_acknowledged_witness :
  handlePostWebhook Scenario.env Demo.walletRequest Demo.world
  = mkOutcome (inr ok200) Demo.world [LogInfoError Scenario.paypalDown].
Proof.
  exact (wallet_verification_failure_is_acknowledged Scenario.env
           Demo.walletRequest Demo.world Scenario.paypalDown
           eq_refl eq_refl eq_refl).
Defined.

(** X8.  A verified wallet event that cannot be decoded -- no purchase unit, or
    a reference string without any ['%'] -- mutates nothing and dispatches
    nothing, and is acknowledged with 200: without a purchase unit the
    callback throws before the commit, and without a separator the item id
    is [undefined], so the commit stops at the item lookup. *)
Theorem undecodable_wallet_event_mutates_nothing (env : Env) (req : Request)
  (w : World) :
  truthy (stripe_signature req) = false ->
  event_type (body req) = Some "CHECKOUT.ORDER.APPROVED" ->
  getAndVerify env (rawBody req) = None ->
  purchase_units (body req) = []
  \/ (exists purchase others,
        purchase_units (body req) = purchase :: others
        /\ percentFree (reference_id purchase) = true) ->
  handlePostWebhook env req w = mkOutcome (inr ok200) w [].
Proof.
  intros Hs Ht Hv Hbad.
  rewrite (handlePostWebhook_no_card env req w Hs).
  unfold walletAndAck, walletPath, paypalCallback.
  rewrite Ht, Hv. cbn [strictNeq negb]. rewrite String.eqb_refl.
  cbn [negb]. unfold bind, call, paypalDonation.
  destruct Hbad as [-> | (purchase & others & -> & Hfree)].
  - reflexivity.
  - rewrite (split_whole _ Hfree). cbn [value final emitted index nth_error].
    rewrite handleDonation_no_item; reflexivity.
Qed.

Lemma undecodable_wallet_event_mutates_nothing_witness :
  handlePostWebhook Demo.env Scenario.emptyWalletRequest Demo.world
  = mkOutcome (inr ok200) Demo.world []
  /\ handlePostWebhook Demo.env Scenario.garbledWalletRequest Demo.world
     = mkOutcome (inr ok200) Demo.world [].
Proof.
  split.
  - apply (undecodable_wallet_event_mutates_nothing Demo.env
             Scenario.emptyWalletRequest Demo.world eq_refl eq_refl eq_refl).
    left; reflexivity.
  - apply (undecodable_wallet_event_mutates_nothing Demo.env
             Scenario.garbledWalletRequest Demo.world eq_refl eq_refl eq_refl).
    right. do 2 eexists. split; reflexivity.
Defined.

(** X9.  Only the first four positions of the reference are read: whatever
    follows a fourth ['%'] is dropped, so an agency name that itself
    contains ['%'] reaches the commit cut off at that character. *)
Theorem wallet_reference_tail_is_dropped (req : Request)
  (purchase : PurchaseUnit) (others : list PurchaseUnit)
  (payer item supplemental agency tail : string) :
  purchase_units (body req) = purchase :: others ->
  reference_id purchase
  = (payer ++ "%" ++ item ++ "%" ++ supplemental ++ "%" ++ agency
     ++ "%" ++ tail)%string ->
  percentFree payer = true ->
  percentFree item = true ->
  percentFree supplemental = true ->
  percentFree agency = true ->
  paypalDonation req
  = inr {| service := "Paypal";
           userId := Some payer;
           wishCardId := Some item;
           amount := Some (amount_value purchase);
           userDonation := Some supplemental;
           agencyName := Some agency |}.
Proof.
  intros Hu Hr Hp Hi Hs Hg. unfold paypalDonation. rewrite Hu, Hr.
  change (payer ++ "%" ++ item ++ "%" ++ supplemental ++ "%" ++ agency
          ++ "%" ++ tail)%string
    with (payer ++ String "%" (item ++ String "%"
            (supplemental ++ String "%" (agency ++ String "%" tail))))%string.
  rewrite (split_piece payer _ Hp), (split_piece item _ Hi),
    (split_piece supplemental _ Hs), (split_piece agency _ Hg).
  reflexivity.
Qed.

Lemma wallet_reference_tail_is_dropped_witness :
  paypalDonation Scenario.tailedWalletRequest
  = inr {| service := "Paypal"; userId := Some "u1"; wishCardId := Some "i9";
           amount := Some "37.50"; userDonation := Some "5.00";
           agencyName := Some "Hope" |}.
Proof.
  exact (wallet_reference_tail_is_dropped Scenario.tailedWalletRequest
           {| reference_id := "u1%i9%5.00%Hope%Agency";
              amount_value := "37.50" |} []
           "u1" "i9" "5.00" "Hope" "Agency"
           eq_refl eq_refl eq_refl eq_refl eq_refl eq_refl).
Defined.

(** ** Splitting the reference string *)

Lemma split_nonempty (sep : ascii) (s : string) : split sep s <> [].
Proof.
  destruct s as [|c s]; cbn [split]; [discriminate|].
  destruct (Ascii.eqb c sep); [discriminate|].
  destruct (split sep s); discriminate.
Qed.

(** X10.  Splitting loses nothing and leaves no separator behind: joining the
    pieces with ['%'] gives the reference string back, no piece contains
    ['%'], and there is one piece more than there are ['%'] in the string
    (so at least one, also for the empty string). *)
Theorem split_pieces_rejoin (s : string) :
  String.concat "%" (split "%" s) = s
  /\ Forall (fun piece => percentFree piece = true) (split "%" s)
  /\ length (split "%" s) = S (occurrences "%" s).
Proof.
  induction s as [|c s (IHc & IHf & IHl)].
  - repeat split. repeat constructor.
  - cbn [split occurrences].
    pose proof (split_nonempty "%" s) as Hne.
    destruct (Ascii.eqb c "%") eqn:E.
    + apply Ascii.eqb_eq in E. subst c.
      destruct (split "%" s) as [|p ps] eqn:Hs; [congruence|].
      split; [|split].
      * rewrite <- IHc. reflexivity.
      * constructor; [reflexivity | exact IHf].
      * cbn [length] in *. now rewrite IHl.
    + destruct (split "%" s) as [|p ps] eqn:Hs; [congruence|].
      split; [|split].
      * rewrite <- IHc. destruct ps as [|q qs]; reflexivity.
      * inversion IHf as [|? ? Hp Hps]; subst. constructor; [|exact Hps].
        unfold percentFree in *. cbn [list_ascii_of_string forallb].
        now rewrite E, Hp.
      * cbn [length] in *. now rewrite IHl.
Qed.

(** ** Creating a payment intent *)

(** X11.  Creating an intent reads the database and changes nothing.  For an
    item that exists exactly one intent is asked of the provider, in [usd],
    with the request's e-mail as receipt address and a metadata bag naming
    the requested item, the authenticated user and the request's agency and
    supplemental amount; the provider's client secret is the response and
    the provider's error, if it throws, is thrown on.  For an item that does
    not exist nothing is asked of the provider. *)
Theorem create_intent_asks_once_and_mutates_nothing (env : Env)
  (req : IntentRequest) (w : World) :
  let o := handlePostCreateIntent env req w in
  final o = w
  /\ match lookupWishCard (ir_wishCardId req) (db w) with
     | None =>
         emitted o = []
         /\ value o = inr (handleError env "Wishcard not found")
     | Some c =>
         exists p,
           emitted o = [CreatePaymentIntent p]
           /\ ir_wishCardId req = Some (im_wishCardId (ip_metadata p))
           /\ im_userId (ip_metadata p) = user_id (ir_user req)
           /\ im_agencyName (ip_metadata p) = ir_agencyName req
           /\ im_userDonation (ip_metadata p) = ir_userDonation req
           /\ ip_currency p = "usd"
           /\ ip_receipt_email p = ir_email req
           /\ value o
              = match paymentIntents_create env p with
                | inl e => inl e
                | inr secret =>
                    inr {| statusCode := 200;
                           responseBody := ClientSecret secret |}
                end
     end.
Proof.
  intro o. subst o.
  destruct (lookupWishCard (ir_wishCardId req) (db w)) as [c|] eqn:Hc.
  - rewrite (createIntent_found env req w c Hc). cbn [final emitted value].
    split; [reflexivity|]. exists (intentParams env req c).
    repeat split. cbn. apply (lookupWishCard_id _ _ _ Hc).
  - rewrite (createIntent_missing env req w Hc). repeat split.
Qed.

Lemma add_nan_r (x : float) : (x + nan)%float = nan.
Proof.
  apply Prim2SF_inj. rewrite FloatAxioms.add_spec.
  change (Prim2SF nan) with S754_nan.
  destruct (Prim2SF x) as [| | |[] ? ?]; reflexivity.
Qed.

Lemma add_nan_l (y : float) : (nan + y)%float = nan.
Proof.
  apply Prim2SF_inj. rewrite FloatAxioms.add_spec. reflexivity.
Qed.

Lemma mul_nan_l (y : float) : (nan * y)%float = nan.
Proof.
  apply Prim2SF_inj. rewrite FloatAxioms.mul_spec. reflexivity.
Qed.

Lemma parseFloat_no_numeral (s : string) :
  readNumeral s = None -> parseFloat s = nan.
Proof. unfold parseFloat. now intros ->. Qed.

(** X12.  The amounts of a create-intent request are not validated.  When
    the item's total price does not start with a numeral, or the
    supplemental amount is non-empty and does not (["abc"], ["$5"]; a
    numeral is an optionally signed [Infinity] or decimal literal after
    leading white space), the amount asked of the provider is [NaN], and so
    is the amount stamped into the metadata. *)
Theorem non_numeric_amount_is_charged_as_NaN (env : Env) (req : IntentRequest)
  (w : World) (c : WishCard) :
  lookupWishCard (ir_wishCardId req) (db w) = Some c ->
  readNumeral (calculateWishItemTotalPrice env (wishItemPrice c)) = None
  \/ (truthy (ir_userDonation req) = true
      /\ readNumeral (interpolate (ir_userDonation req)) = None) ->
  exists p,
    emitted (handlePostCreateIntent env req w) = [CreatePaymentIntent p]
    /\ ip_amount p = nan
    /\ im_amount (ip_metadata p) = nan.
Proof.
  intros Hc Hbad. exists (intentParams env req c).
  rewrite (createIntent_found env req w c Hc). split; [reflexivity|].
  assert (Ht : totalItemPrice env c (ir_userDonation req) = nan).
  { unfold totalItemPrice.
    destruct Hbad as [H | [-> H]]; rewrite (parseFloat_no_numeral _ H).
    - destruct (truthy (ir_userDonation req)); [apply add_nan_l|reflexivity].
    - apply add_nan_r. }
  unfold intentParams. cbn [ip_amount ip_metadata im_amount]. rewrite Ht.
  split; [|reflexivity]. rewrite mul_nan_l. reflexivity.
Qed.

Lemma non_numeric_amount_is_charged_as_NaN_witness :
  exists p,
    emitted (handlePostCreateIntent Demo.env (Demo.intentRequest (Some "$5"))
               Demo.world) = [CreatePaymentIntent p]
    /\ ip_amount p = nan.
Proof.
  destruct (non_numeric_amount_is_charged_as_NaN Demo.env
              (Demo.intentRequest (Some "$5")) Demo.world Demo.bicycle
              eq_refl (or_intror (conj eq_refl eq_refl)))
    as (p & He & Ha & _).
  exists p. split; assumption.
Defined.

(** ** The payment-success page *)

Lemma handleGetPaymentSuccess_run (orderDate : string)
  (req : SuccessRequest) (w : World) :
  handleGetPaymentSuccess orderDate req w
  = mkOutcome
      (inr match sr_user req with
           | Some user =>
               RenderView "payment/success"
                 {| di_email := email user;
                    di_totalAmount := sr_totalAmount req;
                    di_orderDate := orderDate;
                    di_itemName :=
                      option_map wishItemName
                        (lookupWishCard (Some (sr_id req)) (db w));
                    di_childName :=
                      option_map childFirstName
                        (lookupWishCard (Some (sr_id req)) (db w)) |}
           | None => HandleError userTypeError
           end)
      w [].
Proof.
  unfold handleGetPaymentSuccess, tryCatch, bind, getWishCardByObjectId.
  cbn [value final emitted]. destruct (sr_user req); reflexivity.
Qed.

(** X13.  The success page handler never throws and changes nothing.  With
    [res.locals.user] set it renders ['payment/success'] for every id and
    every total -- also for an id that no wish card has, then with item and
    child name [undefined] -- and shows the total of the URL and the user's
    e-mail.  With [res.locals.user] [undefined] the [TypeError] of reading
    its e-mail is handed to [handleError] and nothing is rendered.  What is
    shown depends on the wish cards alone: whether any donation was
    recorded makes no difference. *)
Theorem success_page_renders_or_reports (orderDate : string)
  (req : SuccessRequest) (w : World) :
  let o := handleGetPaymentSuccess orderDate req w in
  let card := lookupWishCard (Some (sr_id req)) (db w) in
  final o = w
  /\ emitted o = []
  /\ (forall user, sr_user req = Some user ->
       value o
       = inr (RenderView "payment/success"
                {| di_email := email user;
                   di_totalAmount := sr_totalAmount req;
                   di_orderDate := orderDate;
                   di_itemName := option_map wishItemName card;
                   di_childName := option_map childFirstName card |}))
  /\ (sr_user req = None -> value o = inr (HandleError userTypeError))
  /\ (forall w', wishCards (db w') = wishCards (db w) ->
                 value (handleGetPaymentSuccess orderDate req w') = value o).
Proof.
  intros o card. subst o card. rewrite handleGetPaymentSuccess_run.
  cbn [value final emitted].
  split; [reflexivity|]. split; [reflexivity|]. split; [|split].
  - now intros user ->.
  - now intros ->.
  - intros w' Hw. rewrite handleGetPaymentSuccess_run. cbn [value].
    unfold lookupWishCard. now rewrite Hw.
Qed.

Lemma success_page_renders_or_reports_witness :
  value (handleGetPaymentSuccess "Nov 3 2026"
           (Scenario.successRequest "i404" (Some Demo.ada)) Demo.world)
  = inr (RenderView "payment/success"
           {| di_email := "ada@example.org"; di_totalAmount := "37.50";
              di_orderDate := "Nov 3 2026"; di_itemName := None;
              di_childName := None |})
  /\ value (handleGetPaymentSuccess "Nov 3 2026"
              (Scenario.successRequest "i9" None) Demo.world)
     = inr (HandleError userTypeError).
Proof.
  split.
  - exact (proj1 (proj2 (proj2 (success_page_renders_or_reports "Nov 3 2026"
             (Scenario.successRequest "i404" (Some Demo.ada)) Demo.world)))
             Demo.ada eq_refl).
  - exact (proj1 (proj2 (proj2 (proj2 (success_page_renders_or_reports
             "Nov 3 2026" (Scenario.successRequest "i9" None) Demo.world))))
             eq_refl).
Defined.

(** ** The slot keys on the item id alone *)

(** X14.  Two verified card events in a row for the same item id: the second is
    dropped with 200 and no effect, whatever payer, amount, supplemental
    amount and agency it carries -- a second donor paying for the same item
    right after the first gets no donation record. *)
Theorem second_card_event_for_same_item_is_dropped (env : Env)
  (req1 req2 : Request) (ev1 ev2 : StripeEvent) (w : World) :
  cardPath req1 = true -> verify env req1 = inr (carrying ev1) -> walletPath req1 = false ->
  cardPath req2 = true -> verify env req2 = inr (carrying ev2) -> walletPath req2 = false ->
  md_wishCardId ev1 = md_wishCardId ev2 ->
  let o1 := handlePostWebhook env req1 w in
  handlePostWebhook env req2 (final o1) = mkOutcome (inr ok200) (final o1) [].
Proof.
  intros Hp1 Hv1 Hw1 Hp2 Hv2 Hw2 Hid o1. subst o1.
  apply (card_duplicate_idle env req2 _ ev2 Hp2 Hv2 Hw2).
  rewrite (card_slot_after env req1 w ev1 Hp1 Hv1 Hw1). exact Hid.
Qed.

Lemma second_card_event_for_same_item_is_dropped_witness :
  md_userId (Demo.eventOf "i9|u2|99|60|OtherAgency") = Some "u2"
  /\ handlePostWebhook Demo.env Scenario.rivalRequest
       (final (handlePostWebhook Demo.env Demo.cardRequest Demo.world))
     = mkOutcome (inr ok200)
         (final (handlePostWebhook Demo.env Demo.cardRequest Demo.world)) [].
Proof.
  split; [vm_compute; reflexivity|].
  assert (Hv1 : verify Demo.env Demo.cardRequest
                = inr (carrying (Demo.eventOf "i9|u1|37.5|5.00|HopeAgency")))
    by (vm_compute; reflexivity).
  assert (Hv2 : verify Demo.env Scenario.rivalRequest
                = inr (carrying (Demo.eventOf "i9|u2|99|60|OtherAgency")))
    by (vm_compute; reflexivity).
  assert (Hid : md_wishCardId (Demo.eventOf "i9|u1|37.5|5.00|HopeAgency")
                = md_wishCardId (Demo.eventOf "i9|u2|99|60|OtherAgency"))
    by (vm_compute; reflexivity).
  exact (second_card_event_for_same_item_is_dropped Demo.env Demo.cardRequest
           Scenario.rivalRequest _ _ Demo.world
           eq_refl Hv1 eq_refl eq_refl Hv2 eq_refl Hid).
Defined.

(** ** No handler reads the status of an item *)

Lemma lookup_withStatus (id : JsString) (i s : string) (d : Db) :
  lookupWishCard id (updateStatusIn i s d)
  = option_map (fun c => if wishCard_id c =? i then setStatus s c else c)
      (lookupWishCard id d).
Proof.
  unfold lookupWishCard, updateStatusIn. cbn [wishCards].
  destruct id as [j|]; [|reflexivity].
  induction (wishCards d) as [|x l IH]; cbn [find map]; [reflexivity|].
  assert (E : wishCard_id (if wishCard_id x =? i then setStatus s x else x)
              = wishCard_id x) by (now destruct (wishCard_id x =? i)).
  rewrite E. destruct (wishCard_id x =? j); [reflexivity | exact IH].
Qed.

Section StatusBlind.

Variable env : Env.

Lemma handleDonation_status_blind (a : DonationArgs) (w : World)
  (i s : string) :
  value (handleDonation env a (withStatus i s w))
  = value (handleDonation env a w)
  /\ emitted (handleDonation env a (withStatus i s w))
     = emitted (handleDonation env a w).
Proof.
  pose proof (lookup_withStatus (wishCardId a) i s (db w)) as Hl.
  change (updateStatusIn i s (db w)) with (db (withStatus i s w)) in Hl.
  destruct (lookupWishCard (wishCardId a) (db w)) as [c|] eqn:Hc;
    cbn [option_map] in Hl.
  - destruct (lookupUser (userId a) (db w)) as [u|] eqn:Hu.
    + destruct (lookupAgency (agencyName a) (db w)) as [g|] eqn:Hg.
      * rewrite (handleDonation_committed env a (withStatus i s w) _ u g
                   Hl Hu Hg).
        rewrite (handleDonation_committed env a w c u g Hc Hu Hg).
        cbn [value emitted].
        destruct (wishCard_id c =? i); split; reflexivity.
      * rewrite (handleDonation_no_agency env a (withStatus i s w) _ u
                   Hl Hu Hg).
        rewrite (handleDonation_no_agency env a w c u Hc Hu Hg).
        cbn [value emitted].
        destruct (wishCard_id c =? i); split; reflexivity.
    + rewrite (handleDonation_no_payer env a (withStatus i s w) _ Hl Hu).
      rewrite (handleDonation_no_payer env a w c Hc Hu).
      cbn [value emitted].
      destruct (wishCard_id c =? i); split; reflexivity.
  - rewrite (handleDonation_no_item env a (withStatus i s w) Hl).
    rewrite (handleDonation_no_item env a w Hc). split; reflexivity.
Qed.

Lemma createIntent_status_blind (req : IntentRequest) (w : World)
  (i s : string) :
  value (handlePostCreateIntent env req (withStatus i s w))
  = value (handlePostCreateIntent env req w)
  /\ emitted (handlePostCreateIntent env req (withStatus i s w))
     = emitted (handlePostCreateIntent env req w).
Proof.
  pose proof (lookup_withStatus (ir_wishCardId req) i s (db w)) as Hl.
  change (updateStatusIn i s (db w)) with (db (withStatus i s w)) in Hl.
  destruct (lookupWishCard (ir_wishCardId req) (db w)) as [c|] eqn:Hc;
    cbn [option_map] in Hl.
  - rewrite (createIntent_found env req (withStatus i s w) _ Hl).
    rewrite (createIntent_found env req w c Hc).
    cbn [value emitted].
    destruct (wishCard_id c =? i); split; reflexivity.
  - rewrite (createIntent_missing env req (withStatus i s w) Hl).
    rewrite (createIntent_missing env req w Hc). split; reflexivity.
Qed.

End StatusBlind.

(** X15.  Overwriting the status of any item changes nothing in what the
    handlers do: the commit throws or returns the same, with the same
    effects (so an item already donated is committed again), create-intent
    asks the provider for the same intent, and the success page shows the
    same. *)
Theorem handlers_never_read_item_status (env : Env) (a : DonationArgs)
  (ireq : IntentRequest) (orderDate : string) (sreq : SuccessRequest)
  (w : World) (i s : string) :
  let w' := withStatus i s w in
  value (handleDonation env a w') = value (handleDonation env a w)
  /\ emitted (handleDonation env a w') = emitted (handleDonation env a w)
  /\ value (handlePostCreateIntent env ireq w')
     = value (handlePostCreateIntent env ireq w)
  /\ emitted (handlePostCreateIntent env ireq w')
     = emitted (handlePostCreateIntent env ireq w)
  /\ value (handleGetPaymentSuccess orderDate sreq w')
     = value (handleGetPaymentSuccess orderDate sreq w).
Proof.
  intro w'. subst w'.
  destruct (handleDonation_status_blind env a w i s) as [H1 H2].
  destruct (createIntent_status_blind env ireq w i s) as [H3 H4].
  repeat (split; [assumption|]).
  rewrite !handleGetPaymentSuccess_run. cbn [value withStatus db].
  rewrite lookup_withStatus.
  destruct (sr_user sreq); [|reflexivity].
  destruct (lookupWishCard (Some (sr_id sreq)) (db w)) as [c|];
    [|reflexivity].
  cbn [option_map]. destruct (wishCard_id c =? i); reflexivity.
Qed.

(** ** The books of a run *)

Lemma dispatches_app (s t : list Effect) :
  dispatches (s ++ t) = dispatches s ++ dispatches t.
Proof. unfold dispatches. apply flat_map_app. Qed.

Lemma ledger_refl (w : World) : ledger w w [].
Proof. unfold ledger. cbn. repeat split; lia. Qed.

Lemma ledger_trans (w0 w1 w2 : World) (s t : list Effect) :
  ledger w0 w1 s -> ledger w1 w2 t -> ledger w0 w2 (s ++ t).
Proof.
  unfold ledger. intros (Hn & Hr & Hd) (Hn' & Hr' & Hd').
  rewrite dispatches_app, length_app, donationRecords_app, statusUpdates_app.
  repeat split; lia.
Qed.

Lemma ledger_remember (id : JsString) (w : World) : ledger w (remember id w) [].
Proof. unfold ledger. cbn. repeat split; lia. Qed.

Section Ledger.

Variable env : Env.

Lemma handleDonation_ledger (a : DonationArgs) (w : World) :
  ledger w (final (handleDonation env a w)) (emitted (handleDonation env a w)).
Proof.
  destruct (lookupWishCard (wishCardId a) (db w)) as [c|] eqn:Hc.
  - destruct (lookupUser (userId a) (db w)) as [u|] eqn:Hu.
    + destruct (lookupAgency (agencyName a) (db w)) as [g|] eqn:Hg.
      * rewrite (handleDonation_committed env a w c u g Hc Hu Hg).
        cbn [final emitted]. unfold ledger.
        destruct (fanOut_counts env a u c g) as [Hs Hd].
        rewrite dispatches_app, length_app, donationRecords_app,
          statusUpdates_app, Hs, Hd, (fanOut_dispatches env).
        cbn. rewrite length_app. cbn. repeat split; lia.
      * rewrite (handleDonation_no_agency env a w c u Hc Hu Hg).
        unfold ledger. cbn. repeat split; lia.
    + rewrite (handleDonation_no_payer env a w c Hc Hu).
      unfold ledger. cbn. repeat split; lia.
  - rewrite (handleDonation_no_item env a w Hc). apply ledger_refl.
Qed.

Lemma walletAndAck_ledger (req : Request) (w : World) :
  ledger w (final (walletAndAck env req w)) (emitted (walletAndAck env req w)).
Proof.
  unfold walletAndAck. destruct (walletPath req); cbn [final emitted];
    [|apply ledger_refl].
  unfold paypalCallback. destruct (getAndVerify env (rawBody req)) as [e|].
  - unfold ledger. cbn. repeat split; lia.
  - unfold bind, call. cbn [value final emitted].
    destruct (paypalDonation req) as [e|a]; cbn [final emitted app].
    + apply ledger_refl.
    + apply handleDonation_ledger.
Qed.

Lemma handlePostWebhook_ledger (req : Request) (w : World) :
  ledger w (final (handlePostWebhook env req w))
    (emitted (handlePostWebhook env req w)).
Proof.
  destruct (cardPath req) eqn:Hp.
  - destruct (verify env req) as [e|[[ev|]]] eqn:Hv;
      [| |rewrite (card_no_metadata env req w _ Hp Hv eq_refl);
          unfold ledger; cbn; repeat split; lia].
    + rewrite (card_rejected env req w e Hp Hv).
      unfold ledger. cbn. repeat split; lia.
    + change {| metadata := Some ev |} with (carrying ev) in Hv.
      destruct (strictNeq (lastWishcardDonation w) (md_wishCardId ev)) eqn:Hs.
      * apply strictNeq_true_iff in Hs.
        rewrite (card_fresh env req w ev Hp Hv Hs). cbv zeta.
        pose proof (handleDonation_ledger (stripeDonation ev)
                      (remember (md_wishCardId ev) w)) as Hc.
        pose proof (ledger_trans _ _ _ _ _
                      (ledger_remember (md_wishCardId ev) w) Hc) as Hc'.
        cbn [app] in Hc'.
        destruct (value (handleDonation env (stripeDonation ev)
                           (remember (md_wishCardId ev) w))) as [e|[]];
          cbn [final emitted].
        -- eapply ledger_trans; [exact Hc'|].
           unfold ledger. cbn. repeat split; lia.
        -- eapply ledger_trans; [exact Hc'|apply walletAndAck_ledger].
      * apply strictNeq_false_iff in Hs.
        rewrite (card_duplicate env req w ev Hp Hv Hs).
        apply walletAndAck_ledger.
  - rewrite (handlePostWebhook_no_card env req w Hp).
    apply walletAndAck_ledger.
Qed.

End Ledger.

(** X16.  The books of any sequence of webhook requests balance.  Every donation
    record comes with exactly three dispatch attempts and there is no
    dispatch without a record; no donation is recorded without an
    item-status update; and the database holds exactly as many donations
    more as the handler recorded. *)
Theorem webhook_books_balance (env : Env) (reqs : list Request) (w : World) :
  let run := handleAll env reqs w in
  length (dispatches (snd run)) = 3 * donationRecords (snd run)
  /\ donationRecords (snd run) <= statusUpdates (snd run)
  /\ length (donations (db (fst run)))
     = length (donations (db w)) + donationRecords (snd run).
Proof.
  cbv zeta. change (ledger w (fst (handleAll env reqs w))
                      (snd (handleAll env reqs w))).
  revert w. induction reqs as [|req reqs IH]; intro w.
  - apply ledger_refl.
  - cbn [handleAll].
    pose proof (IH (final (handlePostWebhook env req w))) as H.
    destruct (handleAll env reqs (final (handlePostWebhook env req w)))
      as [w' t]. cbn [fst snd] in *.
    eapply ledger_trans; [apply handlePostWebhook_ledger | exact H].
Qed.

(** ** A verified card event without metadata *)

(** X17.  A verified card event whose object has no metadata bag throws a
    [TypeError] when line 195 reads its [wishCardId]: the request is
    answered 400 with that error as text, only the error is logged, no
    commit is attempted, and -- unlike for an event whose bag merely lacks
    the key -- the dedup slot keeps what it held.  The wallet path is not
    reached either, whatever event type the body declares. *)
Theorem event_without_metadata_is_answered_400 (env : Env) (req : Request)
  (w : World) (event : SignedEvent) :
  cardPath req = true ->
  verify env req = inr event ->
  metadata event = None ->
  let o := handlePostWebhook env req w in
  value o
  = inr {| statusCode := 400;
           responseBody :=
             Text "Webhook Error: TypeError: Cannot read properties of undefined (reading 'wishCardId')" |}
  /\ final o = w
  /\ emitted o = [LogError "Webhook Error:" metadataTypeError]
  /\ quiet (emitted o) = true.
Proof.
  intros Hp Hv Hm o. subst o.
  rewrite (card_no_metadata env req w event Hp Hv Hm).
  repeat split.
Qed.

Lemma event_without_metadata_is_answered_400_witness :
  let w := remember (Some "i9") Demo.world in
  let o := handlePostWebhook Scenario.env Scenario.payoutRequest w in
  lastWishcardDonation (final o) = Some "i9"
  /\ emitted o = [LogError "Webhook Error:" metadataTypeError].
Proof.
  assert (Hv : verify Scenario.env Scenario.payoutRequest
               = inr {| metadata := None |}) by (vm_compute; reflexivity).
  destruct (event_without_metadata_is_answered_400 Scenario.env
              Scenario.payoutRequest (remember (Some "i9") Demo.world)
              _ eq_refl Hv eq_refl) as (_ & Hf & He & _).
  cbv zeta. rewrite Hf. split; [reflexivity | exact He].
Defined.
